(** * Nano Banana Pro template harvesting: a shallow embedding

    The development follows the two harvesting scripts of the repository,
    [extract_from_github.py] (sparse checkout, deduplication, catalog merge)
    and [extract_banana_templates.py] (clone or mirror retrieval, hash ids).
    Python values are embedded as follows:

    - a [str] is the list of its Unicode code points ([N]);
    - a list is a [list]; a dictionary with a fixed set of keys is a record,
      with [option] fields for the keys the code probes with [in] or [.get];
    - a function that can raise returns a [result];
    - the catalog file is explicit state threaded through [main]. *)

From Stdlib Require Import List NArith ZArith Lia Bool String Ascii Arith.
Import ListNotations.

Set Implicit Arguments.

(** ** Python strings *)

Module Py.

Definition str := list N.

(** Literals are written as UTF-8 text and decoded to code points. *)

Fixpoint bytes_of (s : string) : list N :=
  match s with
  | EmptyString => []
  | String a r => N_of_ascii a :: bytes_of r
  end.

Fixpoint utf8_decode (bs : list N) : str :=
  match bs with
  | [] => []
  | b0 :: r0 =>
      if (b0 <? 0x80)%N then b0 :: utf8_decode r0
      else
        match r0 with
        | [] => []
        | b1 :: r1 =>
            if (b0 <? 0xE0)%N
            then ((b0 - 0xC0) * 64 + (b1 - 0x80))%N :: utf8_decode r1
            else
              match r1 with
              | [] => []
              | b2 :: r2 =>
                  if (b0 <? 0xF0)%N
                  then ((b0 - 0xE0) * 4096 + (b1 - 0x80) * 64
                        + (b2 - 0x80))%N :: utf8_decode r2
                  else
                    match r2 with
                    | [] => []
                    | b3 :: r3 =>
                        ((b0 - 0xF0) * 262144 + (b1 - 0x80) * 4096
                         + (b2 - 0x80) * 64 + (b3 - 0x80))%N
                          :: utf8_decode r3
                    end
              end
        end
  end.

Definition u (s : string) : str := utf8_decode (bytes_of s).

Definition str_eqb (a b : str) : bool :=
  if list_eq_dec N.eq_dec a b then true else false.

(** Truthiness of a string: [if s] holds for the non-empty ones. *)
Definition truthy (s : str) : bool :=
  match s with [] => false | _ :: _ => true end.

(** [s[:n]] *)
Definition slice_to (n : nat) (s : str) : str := firstn n s.

(** *** Character classes

    ASCII is written out.  The CJK ideographs U+4E00..U+9FA5, which the
    keyword tables of the scripts use, are letters without case.  Every other
    code point is looked up in the Unicode tables of the interpreter, which
    are a parameter of the development. *)

Class UnicodeData := {
  ud_alpha : N -> bool;
  ud_lower : N -> list N;
  ud_title : N -> list N;
  ud_cased : N -> bool;
  ud_case_ignorable : N -> bool;
  ud_decimal : N -> option N
}.

Definition is_ascii (c : N) : bool := (c <? 128)%N.
Definition is_ascii_upper (c : N) : bool := ((65 <=? c) && (c <=? 90))%N.
Definition is_ascii_lower (c : N) : bool := ((97 <=? c) && (c <=? 122))%N.
Definition is_ascii_digit (c : N) : bool := ((48 <=? c) && (c <=? 57))%N.
Definition is_cjk (c : N) : bool := ((0x4E00 <=? c) && (c <=? 0x9FA5))%N.

(** [str.isspace] for one character: the complete list of CPython. *)
Definition isspace (c : N) : bool :=
  ((9 <=? c) && (c <=? 13) || (28 <=? c) && (c <=? 32)
   || (c =? 0x85) || (c =? 0xA0) || (c =? 0x1680)
   || (0x2000 <=? c) && (c <=? 0x200A)
   || (c =? 0x2028) || (c =? 0x2029) || (c =? 0x202F)
   || (c =? 0x205F) || (c =? 0x3000))%N.

Section Unicode.
Context {U : UnicodeData}.

Definition isalpha (c : N) : bool :=
  if is_ascii c then is_ascii_upper c || is_ascii_lower c
  else if is_cjk c then true else ud_alpha c.

Definition lower_char (c : N) : list N :=
  if is_ascii_upper c then [(c + 32)%N]
  else if is_ascii c || is_cjk c then [c] else ud_lower c.

Definition title_char (c : N) : list N :=
  if is_ascii_lower c then [(c - 32)%N]
  else if is_ascii c || is_cjk c then [c] else ud_title c.

Definition cased (c : N) : bool :=
  if is_ascii c then is_ascii_upper c || is_ascii_lower c
  else if is_cjk c then false else ud_cased c.

(** The characters that do not count when the interpreter looks for the
    cased neighbour of a letter: in ASCII the apostrophe, the full stop, the
    colon, the circumflex and the grave accent. *)
Definition case_ignorable (c : N) : bool :=
  if is_ascii c
  then ((c =? 39) || (c =? 46) || (c =? 58) || (c =? 94) || (c =? 96))%N
  else if is_cjk c then false else ud_case_ignorable c.

(** Whether the first character of [s] that counts is cased. *)
Fixpoint cased_next (s : str) : bool :=
  match s with
  | [] => false
  | c :: r => if case_ignorable c then cased_next r else cased c
  end.

(** The lower case of the character [c] found between [before] (the
    characters that precede it, the nearest first) and [after].  The Greek
    capital sigma becomes a final sigma when a cased character precedes it
    and none follows, and a plain one otherwise. *)
Definition lower_ucs4 (before after : str) (c : N) : list N :=
  if (c =? 0x3A3)%N
  then [if cased_next before && negb (cased_next after)
        then 0x3C2%N else 0x3C3%N]
  else lower_char c.

Fixpoint lower_from (before s : str) : str :=
  match s with
  | [] => []
  | c :: r => lower_ucs4 before r c ++ lower_from (c :: before) r
  end.

(** [s.lower()] *)
Definition lower (s : str) : str := lower_from [] s.

(** [s.title()]: a character that follows a cased character is lowered,
    any other one is title-cased. *)
Fixpoint title_from (before : str) (previous_is_cased : bool) (s : str)
    : str :=
  match s with
  | [] => []
  | c :: r =>
      (if previous_is_cased then lower_ucs4 before r c else title_char c)
        ++ title_from (c :: before) (cased c) r
  end.

Definition title (s : str) : str := title_from [] false s.

End Unicode.

(** *** Searching and splitting *)

(** [s.startswith(p)] *)
Fixpoint startswith (p s : str) : bool :=
  match p, s with
  | [], _ => true
  | _ :: _, [] => false
  | a :: p', b :: s' => (a =? b)%N && startswith p' s'
  end.

(** [s.endswith(p)] *)
Definition endswith (p s : str) : bool := startswith (rev p) (rev s).

(** [needle in hay] *)
Fixpoint contains (needle hay : str) : bool :=
  startswith needle hay
  || match hay with
     | [] => false
     | _ :: r => contains needle r
     end.

(** [any(kw in s for kw in kws)] *)
Definition any_in (kws : list str) (s : str) : bool :=
  existsb (fun kw => contains kw s) kws.

(** [s.lstrip()], [s.rstrip()], [s.strip()] *)
Fixpoint lstrip (s : str) : str :=
  match s with
  | [] => []
  | c :: r => if isspace c then lstrip r else s
  end.

Definition rstrip (s : str) : str := rev (lstrip (rev s)).

Definition strip (s : str) : str := rstrip (lstrip s).

(** [s.split(sep)] for a separator of one character. *)
Fixpoint split (sep : N) (s : str) : list str :=
  match s with
  | [] => [[]]
  | c :: r =>
      if (c =? sep)%N then [] :: split sep r
      else
        match split sep r with
        | h :: t => (c :: h) :: t
        | [] => [[c]]
        end
  end.

(** [s.replace(old, new)] for a non-empty [old]: occurrences are replaced
    from left to right and do not overlap.  [skip] counts the characters of
    a matched occurrence that are still to be passed over. *)
Fixpoint replace_from (old new : str) (skip : nat) (s : str) : str :=
  match s with
  | [] => []
  | c :: r =>
      match skip with
      | S k => replace_from old new k r
      | O =>
          if startswith old s
          then new ++ replace_from old new (List.length old - 1) r
          else c :: replace_from old new 0 r
      end
  end.

Definition replace (old new s : str) : str := replace_from old new 0 s.

(** *** Integers and text

    [int(s)]: code points outside ASCII are first turned into ASCII (spaces
    into a blank, decimal digits into their ASCII digit, anything else into a
    question mark); then blanks around the literal are skipped, a sign is
    read, and the digits follow, where one underscore may separate two
    digits.  [None] stands for the [ValueError] of the interpreter.  (The
    guard of the interpreter on the length of a decimal conversion, which
    [sys.set_int_max_str_digits] sets, is a resource limit and is not
    modelled.) *)

Section IntOfStr.
Context {U : UnicodeData}.

Definition to_ascii_char (c : N) : N :=
  if is_ascii c then c
  else if isspace c then 32%N
  else
    match (if is_cjk c then None else ud_decimal c) with
    | Some d => if (d <? 10)%N then (48 + d)%N else 63%N
    | None => 63%N
    end.

Definition is_c_space (c : N) : bool :=
  ((9 <=? c) && (c <=? 13) || (c =? 32))%N.

Fixpoint skip_c_space (s : str) : str :=
  match s with
  | [] => []
  | c :: r => if is_c_space c then skip_c_space r else s
  end.

Fixpoint digits_value (acc : Z) (after_digit : bool) (s : str) : option Z :=
  match s with
  | [] => if after_digit then Some acc else None
  | c :: r =>
      if is_ascii_digit c
      then digits_value (10 * acc + Z.of_N (c - 48)) true r
      else if (c =? 95)%N && after_digit then digits_value acc false r
      else None
  end.

Definition int (s : str) : option Z :=
  let a := map to_ascii_char s in
  let t := rev (skip_c_space (rev (skip_c_space a))) in
  match t with
  | c :: r =>
      if (c =? 43)%N then digits_value 0 false r
      else if (c =? 45)%N then option_map Z.opp (digits_value 0 false r)
      else digits_value 0 false t
  | [] => None
  end.

End IntOfStr.

(** The decimal digits of a natural number, most significant first. *)
Fixpoint digits_from (fuel : nat) (n : N) (acc : str) : str :=
  match fuel with
  | O => acc
  | S f =>
      let acc' := (48 + n mod 10)%N :: acc in
      if (n / 10 =? 0)%N then acc' else digits_from f (n / 10)%N acc'
  end.

Definition decimal (n : N) : str :=
  digits_from (S (N.to_nat (N.log2 n))) n [].

Definition zfill (width : nat) (ds : str) : str :=
  repeat 48%N (width - List.length ds) ++ ds.

(** [f"{n:03d}"]: the sign counts in the width. *)
Definition format_03d (n : Z) : str :=
  if (n <? 0)%Z then 45%N :: zfill 2 (decimal (Z.to_N (- n)))
  else zfill 3 (decimal (Z.to_N n)).

(** [f"{n:04d}"] *)
Definition format_04d (n : Z) : str :=
  if (n <? 0)%Z then 45%N :: zfill 3 (decimal (Z.to_N (- n)))
  else zfill 4 (decimal (Z.to_N n)).

(** [parts[-1]] and [parts[-2]] of a non-empty list *)
Definition last_part (parts : list str) : str := last parts [].

Definition second_last_part (parts : list str) : str :=
  last (removelast parts) [].

End Py.

(** ** Shared data: results, template records, the catalog *)

Inductive exn := ValueError.

Inductive result (A : Type) :=
| Ok (a : A)
| Raise (e : exn).

Arguments Ok {A} a.
Arguments Raise {A} e.

(** A template is a dictionary.  The keys ["id"] and ["prompt"] are probed
    by the code (['id' in item], [existing.get('prompt', '')]) and are
    optional; an item read from the catalog may lack them.  The values are
    strings and lists of strings, as the scripts write them. *)
Module Template.

Record source := {
  name : Py.str;
  label : Py.str;
  url : Py.str
}.

Record t := {
  id : option Py.str;
  title : Py.str;
  channels : list Py.str;
  materials : list Py.str;
  industries : list Py.str;
  ratio : Py.str;
  preview : Py.str;
  image : Py.str;
  prompt : option Py.str;
  prompt_params : Py.str;
  tips : Py.str;
  src : source
}.

(** [item.get('prompt', '')] *)
Definition get_prompt (item : t) : Py.str :=
  match prompt item with
  | Some p => p
  | None => []
  end.

(** [template['id'] = new_id] *)
Definition set_id (new_id : Py.str) (x : t) : t :=
  {| id := Some new_id; title := title x; channels := channels x;
     materials := materials x; industries := industries x;
     ratio := ratio x; preview := preview x; image := image x;
     prompt := prompt x; prompt_params := prompt_params x;
     tips := tips x; src := src x |}.

End Template.

(** The catalog [{"meta": {"version", "updated_at"}, "items": [...]}]. *)
Record Catalog := {
  meta_version : Py.str;
  meta_updated_at : Py.str;
  items : list Template.t
}.

(** A checked-out directory, as [os.walk] sees it: the file names and the
    sub-directories of each directory, in enumeration order. *)
Inductive tree :=
| Dir (files : list Py.str) (dirs : forest)
with forest :=
| NoDirs
| SubDir (name : Py.str) (t : tree) (rest : forest).

Scheme tree_forest_ind := Induction for tree Sort Prop
  with forest_tree_ind := Induction for forest Sort Prop.

Fixpoint lookup_forest (name : Py.str) (f : forest) : option tree :=
  match f with
  | NoDirs => None
  | SubDir n t rest =>
      if Py.str_eqb n name then Some t else lookup_forest name rest
  end.

Definition lookup_dir (name : Py.str) (t : tree) : option tree :=
  match t with
  | Dir _ dirs => lookup_forest name dirs
  end.

(** [os.path.join(root, file)], on relative POSIX paths *)
Definition path_join (root file : Py.str) : Py.str := root ++ 47%N :: file.

Definition templates_dir_name : Py.str := Py.u "gpt4o-image-prompts-master".

Definition generic_params : Py.str :=
  Py.u "可根据需要调整提示词中的风格、细节和质量参数".

Definition blob_url : Py.str :=
  Py.u "https://github.com/xianyu110/awesome-nanobananapro-prompts/blob/master/".

Definition fence : Py.str := Py.u "```".
Definition hash_sign : Py.str := Py.u "#".

(** [english_chars / total_chars > num/den] with [total_chars > 0].  The
    code divides two floats and compares with the literal [0.6] or [0.7];
    below 10^15 letters the rounded quotient exceeds the rounded literal
    exactly when the fraction exceeds 3/5 or 7/10, which is what the integer
    comparison states. *)
Definition english_ratio_exceeds {U : Py.UnicodeData} (num den : nat)
    (text : Py.str) : bool :=
  let english_chars :=
    List.length (filter (fun c => Py.isalpha c && (c <? 128)%N) text) in
  let total_chars := List.length (filter Py.isalpha text) in
  (0 <? total_chars) && (num * total_chars <? den * english_chars).

(** ** [extract_from_github.py] *)

Module extract_from_github.

Section WithUnicode.
Context {U : Py.UnicodeData}.

(** [get_next_id]: the loop over the items, then the formatting. *)
Fixpoint get_next_id_loop (max_id : Z) (templates : list Template.t)
  : result Z :=
  match templates with
  | [] => Ok max_id
  | item :: rest =>
      match Template.id item with
      | Some s =>
          match Py.int (Py.replace (Py.u "nbp-") [] s) with
          | Some id_num =>
              get_next_id_loop
                (if (max_id <? id_num)%Z then id_num else max_id) rest
          | None => Raise ValueError
          end
      | None => get_next_id_loop max_id rest
      end
  end.

Definition get_next_id (templates : list Template.t) : result Py.str :=
  match get_next_id_loop 0 templates with
  | Ok max_id => Ok (Py.u "nbp-" ++ Py.format_03d (max_id + 1))
  | Raise e => Raise e
  end.

(** [find_template_files]: [os.walk] visits a directory, then its
    sub-directories in order; [root] is the path relative to the checkout. *)
Definition is_template_file (file : Py.str) : bool :=
  Py.endswith (Py.u ".md") file
  && negb (Py.str_eqb (Py.lower file) (Py.u "readme.md")).

Fixpoint walk (root : Py.str) (t : tree) : list Py.str :=
  match t with
  | Dir files dirs =>
      map (path_join root) (filter is_template_file files)
      ++ walk_dirs root dirs
  end
with walk_dirs (root : Py.str) (f : forest) : list Py.str :=
  match f with
  | NoDirs => []
  | SubDir name t rest => walk (path_join root name) t ++ walk_dirs root rest
  end.

Definition find_template_files (repo_dir : tree) : list Py.str :=
  match lookup_dir templates_dir_name repo_dir with
  | None => []
  | Some templates_dir => walk templates_dir_name templates_dir
  end.

(** [classify_template] *)
Definition classify_template (filename content : Py.str)
  : list Py.str * list Py.str * list Py.str * Py.str :=
  let filename_lower := Py.lower filename in
  let channels :=
    if Py.any_in [Py.u "portrait"; Py.u "anime"; Py.u "character";
                  Py.u "写实"; Py.u "动漫"] filename_lower
    then [Py.u "生活"; Py.u "小红书"]
    else if Py.any_in [Py.u "product"; Py.u "food"; Py.u "fashion";
                       Py.u "产品"; Py.u "美食"; Py.u "时尚"] filename_lower
    then [Py.u "电商"]
    else if Py.any_in [Py.u "cyberpunk"; Py.u "comic"; Py.u "pixel";
                       Py.u "fantasy"; Py.u "赛博"; Py.u "漫画"] filename_lower
    then [Py.u "娱乐"; Py.u "短视频平台"]
    else [Py.u "全部"] in
  let materials :=
    if Py.any_in [Py.u "portrait"; Py.u "character"; Py.u "写实"]
         filename_lower
    then [Py.u "个人写真"]
    else if Py.any_in [Py.u "poster"; Py.u "海报"] filename_lower
    then [Py.u "电影海报"; Py.u "广告图"]
    else if Py.any_in [Py.u "logo"; Py.u "design"] filename_lower
    then [Py.u "产品设计"]
    else if Py.any_in [Py.u "comic"; Py.u "漫画"] filename_lower
    then [Py.u "漫画插图"]
    else if Py.any_in [Py.u "landscape"; Py.u "风景"] filename_lower
    then [Py.u "全屏海报"]
    else [Py.u "全部"] in
  let industries :=
    if Py.any_in [Py.u "food"; Py.u "美食"] filename_lower
    then [Py.u "美食餐饮"]
    else if Py.any_in [Py.u "fashion"; Py.u "时尚"] filename_lower
    then [Py.u "服饰箱包"]
    else if Py.any_in [Py.u "architectural"; Py.u "architecture";
                       Py.u "建筑"] filename_lower
    then [Py.u "建筑"; Py.u "家居家装"]
    else [Py.u "通用"] in
  let ratio :=
    if Py.any_in [Py.u "portrait"; Py.u "写实"] filename_lower
    then Py.u "9:16"
    else if Py.any_in [Py.u "landscape"; Py.u "风景"] filename_lower
    then Py.u "16:9"
    else if Py.any_in [Py.u "poster"; Py.u "海报"] filename_lower
    then Py.u "3:4"
    else Py.u "1:1" in
  (channels, materials, industries, ratio).

(** [parse_prompt_file], first loop: the first non-blank line inside a
    fenced block.  The empty string is "nothing found", as in the code. *)
Fixpoint code_block_loop (in_code_block : bool) (lines : list Py.str)
  : Py.str :=
  match lines with
  | [] => []
  | line :: rest =>
      let stripped := Py.strip line in
      if Py.startswith fence stripped
      then code_block_loop (negb in_code_block) rest
      else if in_code_block && Py.truthy stripped then stripped
      else code_block_loop in_code_block rest
  end.

(** Second loop: the first long line that is mostly English. *)
Fixpoint english_loop (lines : list Py.str) : Py.str :=
  match lines with
  | [] => []
  | line :: rest =>
      let stripped := Py.strip line in
      if Py.truthy stripped && negb (Py.startswith hash_sign stripped)
         && (20 <? List.length stripped)
         && english_ratio_exceeds 3 5 stripped
      then stripped
      else english_loop rest
  end.

(** The value of [prompt] when the two loops are over. *)
Definition extracted_prompt (content : Py.str) : Py.str :=
  let lines := Py.split 10 content in
  let prompt := code_block_loop false lines in
  if negb (Py.truthy prompt) then english_loop lines else prompt.

(** [filename] and [title] of [parse_prompt_file]. *)
Definition filename_of (filepath : Py.str) : Py.str :=
  Py.last_part (Py.split 47 (Py.replace (Py.u ".md") [] filepath)).

Definition title_of (filename : Py.str) : Py.str :=
  Py.title
    (Py.strip
       (Py.replace (Py.u "_") (Py.u " ")
          (Py.replace (Py.u "-") (Py.u " ") filename))).

Definition parse_prompt_file (content filepath : Py.str)
  : option Template.t :=
  if negb (Py.truthy content) then None
  else
    let filename := filename_of filepath in
    let prompt := extracted_prompt content in
    if negb (Py.truthy prompt) then None
    else
      let title := title_of filename in
      let '(channels, materials, industries, ratio) :=
        classify_template filename content in
      Some
        {| Template.id := None;
           Template.title := Py.u "Nano Banana·" ++ title;
           Template.channels := channels;
           Template.materials := materials;
           Template.industries := industries;
           Template.ratio := ratio;
           Template.preview := [];
           Template.image := [];
           Template.prompt := Some (Py.slice_to 500 prompt);
           Template.prompt_params := generic_params;
           Template.tips :=
             Py.u "从 GitHub 仓库提取的" ++ title ++ Py.u "提示词模板";
           Template.src :=
             {| Template.name := Py.u "@xianyu110";
                Template.label := Py.u "GitHub";
                Template.url := blob_url ++ filepath |} |}.

(** [main], step 4: the duplicate scan of one parsed template. *)
Definition is_duplicate (existing_items : list Template.t)
    (template : Template.t) : bool :=
  existsb
    (fun existing =>
       Py.str_eqb (Py.slice_to 100 (Template.get_prompt existing))
                  (Py.slice_to 100 (Template.get_prompt template)))
    existing_items.

(** The loop of step 4 over the file paths.  [read_file_content] gives the
    text of a file, empty when it cannot be read. *)
Fixpoint parse_loop (read_file_content : Py.str -> Py.str)
    (existing_items new_templates : list Template.t)
    (template_files : list Py.str) : result (list Template.t) :=
  match template_files with
  | [] => Ok new_templates
  | filepath :: rest =>
      let content := read_file_content filepath in
      let skip :=
        parse_loop read_file_content existing_items new_templates rest in
      if Py.truthy content then
        match parse_prompt_file content filepath with
        | Some template =>
            if is_duplicate existing_items template then skip
            else
              match get_next_id (existing_items ++ new_templates) with
              | Ok new_id =>
                  parse_loop read_file_content existing_items
                    (new_templates ++ [Template.set_id new_id template]) rest
              | Raise e => Raise e
              end
        | None => skip
        end
      else skip
  end.

(** The templates parsed from the files, in order: the candidates of the
    duplicate scan. *)
Definition candidates (read_file_content : Py.str -> Py.str)
    (template_files : list Py.str) : list Template.t :=
  flat_map
    (fun filepath =>
       let content := read_file_content filepath in
       if Py.truthy content then
         match parse_prompt_file content filepath with
         | Some template => [template]
         | None => []
         end
       else [])
    template_files.

(** What [main] does to the catalog file: nothing, or one [json.dump] of
    the updated data. *)
Inductive outcome :=
| NoWrite
| Write (data : Catalog).

(** [main].  [repo_dir] is the result of [clone_repo_sparse], [data] the
    catalog as loaded, [today] and [now] the two renderings of the clock. *)
Definition main (repo_dir : option tree)
    (read_file_content : Py.str -> Py.str) (data : Catalog)
    (today now : Py.str) : result outcome :=
  match repo_dir with
  | None => Ok NoWrite
  | Some repo =>
      match find_template_files repo with
      | [] => Ok NoWrite
      | template_files =>
          let existing_items := items data in
          match parse_loop read_file_content existing_items []
                  (firstn 50 template_files) with
          | Raise e => Raise e
          | Ok [] => Ok NoWrite
          | Ok new_templates =>
              Ok (Write {| meta_version := today;
                           meta_updated_at := now;
                           items := items data ++ new_templates |})
          end
      end
  end.

(** The records a run of [main] accepts: the value of [new_templates]
    when step 4 is over, and none when [main] returns before it. *)
Definition accepted (repo_dir : option tree)
    (read_file_content : Py.str -> Py.str) (data : Catalog)
  : result (list Template.t) :=
  match repo_dir with
  | None => Ok []
  | Some repo =>
      match find_template_files repo with
      | [] => Ok []
      | template_files =>
          parse_loop read_file_content (items data) []
            (firstn 50 template_files)
      end
  end.

(** The catalog on disk when [main] is over and every write completed. *)
Definition persisted_after (data : Catalog) (r : result outcome) : Catalog :=
  match r with
  | Ok (Write data') => data'
  | Ok NoWrite => data
  | Raise _ => data
  end.

End WithUnicode.

End extract_from_github.

(** ** [extract_banana_templates.py], class [NanoBananaTemplateExtractor] *)

Module extract_banana_templates.

Definition placeholder_prompt : Py.str := Py.u "高质量图像生成提示词".

(** [self.owner], [self.repo], [self.branch] *)
Definition owner : Py.str := Py.u "xianyu110".
Definition repo : Py.str := Py.u "awesome-nanobananapro-prompts".
Definition branch : Py.str := Py.u "master".

(** The two lists of [extract_via_html]. *)
Definition possible_files : list Py.str :=
  [Py.u "gpt4o-image-prompts-master/Portrait/Realistic-portrait.md";
   Py.u "gpt4o-image-prompts-master/Portrait/Anime-character.md";
   Py.u "gpt4o-image-prompts-master/Art-style/Cyberpunk.md";
   Py.u "gpt4o-image-prompts-master/Art-style/Digital-art.md";
   Py.u "gpt4o-image-prompts-master/Photography/Product-photography.md"].

Definition mirrors : list Py.str :=
  [Py.u "https://raw.githubusercontent.com";
   Py.u "https://ghproxy.net/https://raw.githubusercontent.com";
   Py.u "https://mirror.ghproxy.com/https://raw.githubusercontent.com"].

(** [f"{mirror}/{self.owner}/{self.repo}/{self.branch}/{filepath}"] *)
Definition raw_url (mirror filepath : Py.str) : Py.str :=
  mirror ++ 47%N :: owner ++ 47%N :: repo ++ 47%N :: branch
  ++ 47%N :: filepath.

(** An element of the list that [extract_via_html] returns: it puts a
    string and a list of strings into one list. *)
Inductive value :=
| Str (s : Py.str)
| StrList (l : list Py.str).

(** How [extract_all_templates] ends: with a list of templates, or with the
    [AttributeError] of a method call on a value that lacks the method. *)
Inductive outcome :=
| Returns (templates : list Template.t)
| AttributeError.

(** [filepath.encode()] raises [UnicodeEncodeError] exactly when the path
    holds a surrogate code point; [os.walk] yields such paths for file
    names that are not valid UTF-8. *)
Definition utf8_encodable (s : Py.str) : bool :=
  forallb (fun c => negb ((0xD800 <=? c) && (c <=? 0xDFFF))%N) s.

Section WithUnicode.
Context {U : Py.UnicodeData}.

(** [int(hashlib.md5(filepath.encode()).hexdigest()[:8], 16)]: the digest
    comes from a library and is a parameter. *)
Variable md5_head : Py.str -> Z.

(** [_is_english_prompt] *)
Definition _is_english_prompt (text : Py.str) : bool :=
  english_ratio_exceeds 7 10 text.

(** [_extract_prompt], first loop: one pass in which a non-blank line inside
    a fenced block and a long English line outside of one both end the
    search. *)
Fixpoint first_loop (in_code_block : bool) (lines : list Py.str) : Py.str :=
  match lines with
  | [] => []
  | line :: rest =>
      let stripped := Py.strip line in
      if Py.startswith fence stripped
      then first_loop (negb in_code_block) rest
      else if in_code_block && Py.truthy stripped then stripped
      else if negb in_code_block && Py.truthy stripped
              && negb (Py.startswith hash_sign stripped)
              && (20 <? List.length stripped)
      then
        if _is_english_prompt stripped then stripped
        else first_loop in_code_block rest
      else first_loop in_code_block rest
  end.

(** Second loop: the first line of more than ten characters that is not a
    heading. *)
Fixpoint second_loop (lines : list Py.str) : Py.str :=
  match lines with
  | [] => []
  | line :: rest =>
      let stripped := Py.strip line in
      if Py.truthy stripped && negb (Py.startswith hash_sign stripped)
         && (10 <? List.length stripped)
      then stripped
      else second_loop rest
  end.

Definition _extract_prompt (content : Py.str) : Py.str :=
  let lines := Py.split 10 content in
  let prompt := first_loop false lines in
  let prompt :=
    if negb (Py.truthy prompt) then second_loop lines else prompt in
  if Py.truthy prompt then prompt else placeholder_prompt.

(** [_classify_template] *)
Definition _classify_template (category title content : Py.str)
  : list Py.str * list Py.str * list Py.str * Py.str :=
  let title_lower := Py.lower title in
  let category_lower := Py.lower category in
  let channels :=
    if Py.str_eqb category (Py.u "肖像")
       || Py.contains (Py.u "portrait") category_lower
    then [Py.u "生活"; Py.u "小红书"]
    else if Py.str_eqb category (Py.u "摄影")
            || Py.contains (Py.u "photography") category_lower
    then [Py.u "电商"; Py.u "广告营销"]
    else if Py.str_eqb category (Py.u "设计")
            || Py.contains (Py.u "design") category_lower
    then [Py.u "电商"; Py.u "广告营销"]
    else if Py.str_eqb category (Py.u "场景")
            || Py.str_eqb category (Py.u "艺术风格")
    then [Py.u "娱乐"; Py.u "短视频平台"]
    else [Py.u "全部"] in
  let materials :=
    if Py.contains (Py.u "肖像") category_lower
       || Py.contains (Py.u "角色") title_lower
       || Py.contains (Py.u "character") title_lower
       || Py.contains (Py.u "portrait") title_lower
    then [Py.u "个人写真"]
    else if Py.contains (Py.u "logo") title_lower
    then [Py.u "产品设计"]
    else if Py.contains (Py.u "产品") title_lower
            || Py.contains (Py.u "product") title_lower
    then [Py.u "产品展示"]
    else if Py.contains (Py.u "海报") title_lower
            || Py.contains (Py.u "poster") title_lower
    then [Py.u "电影海报"; Py.u "广告图"]
    else if Py.contains (Py.u "风景") title_lower
            || Py.contains (Py.u "landscape") title_lower
    then [Py.u "全屏海报"]
    else if Py.contains (Py.u "漫画") category_lower
            || Py.contains (Py.u "comic") title_lower
    then [Py.u "漫画插图"]
    else [Py.u "全部"] in
  let industries :=
    if Py.contains (Py.u "美食") title_lower
       || Py.contains (Py.u "food") title_lower
    then [Py.u "美食餐饮"]
    else if Py.contains (Py.u "时尚") title_lower
            || Py.contains (Py.u "fashion") title_lower
    then [Py.u "服饰箱包"]
    else if Py.contains (Py.u "建筑") title_lower
            || Py.contains (Py.u "室内") title_lower
            || Py.contains (Py.u "architectural") title_lower
            || Py.contains (Py.u "interior") title_lower
    then [Py.u "建筑"; Py.u "家居家装"]
    else if Py.contains (Py.u "logo") title_lower
            || Py.contains (Py.u "设计") title_lower
    then [Py.u "广告营销"]
    else [Py.u "通用"] in
  let ratio :=
    if Py.contains (Py.u "肖像") category_lower
       || Py.contains (Py.u "portrait") title_lower
    then Py.u "9:16"
    else if Py.contains (Py.u "风景") title_lower
            || Py.contains (Py.u "landscape") title_lower
    then Py.u "16:9"
    else if Py.contains (Py.u "海报") title_lower
            || Py.contains (Py.u "poster") title_lower
    then Py.u "3:4"
    else Py.u "1:1" in
  (channels, materials, industries, ratio).

(** [_extract_params] *)
Fixpoint params_loop (lines : list Py.str) : Py.str :=
  match lines with
  | [] => generic_params
  | line :: rest =>
      let stripped := Py.strip line in
      if Py.any_in [Py.u "parameter"; Py.u "建议"; Py.u "参数"; Py.u "tip"]
           (Py.lower stripped)
      then Py.slice_to 100 stripped
      else params_loop rest
  end.

Definition _extract_params (content : Py.str) : Py.str :=
  params_loop (Py.split 10 content).

(** [category], [filename] and [title] of [parse_prompt_file]. *)
Definition parts_of (filepath : Py.str) : list Py.str :=
  Py.split 47 (Py.replace (Py.u ".md") [] filepath).

Definition category_of (filepath : Py.str) : Py.str :=
  let parts := parts_of filepath in
  if 3 <=? List.length parts then Py.second_last_part parts
  else Py.u "通用".

Definition title_of (filepath : Py.str) : Py.str :=
  Py.strip
    (Py.replace (Py.u "-") (Py.u " ") (Py.last_part (parts_of filepath))).

(** [parse_prompt_file]: the record it returns.  The call raises when the
    digest of the path cannot be taken, see [utf8_encodable]; its callers
    catch that. *)
Definition parse_prompt_file (content filepath : Py.str) : Template.t :=
  let category := category_of filepath in
  let title := title_of filepath in
  let prompt := _extract_prompt content in
  let hash_val := md5_head filepath in
  let template_id := Py.u "nbp-" ++ Py.format_04d (hash_val mod 10000) in
  let '(channels, materials, industries, ratio) :=
    _classify_template category title content in
  {| Template.id := Some template_id;
     Template.title := Py.u "Nano Banana·" ++ title;
     Template.channels := channels;
     Template.materials := materials;
     Template.industries := industries;
     Template.ratio := ratio;
     Template.preview := [];
     Template.image := [];
     Template.prompt := Some (Py.slice_to 500 prompt);
     Template.prompt_params := _extract_params content;
     Template.tips :=
       category ++ Py.u "类提示词模板，适用于" ++ title
       ++ Py.u "风格的图像生成";
     Template.src :=
       {| Template.name := Py.u "@xianyu110";
          Template.label := Py.u "GitHub";
          Template.url := blob_url ++ filepath |} |}.

(** [find_template_files]: the walk of the cloned tree. *)
Definition is_template_file (file : Py.str) : bool :=
  Py.endswith (Py.u ".md") file
  && negb (Py.str_eqb file (Py.u "README.md")).

Fixpoint walk (root : Py.str) (t : tree) : list Py.str :=
  match t with
  | Dir files dirs =>
      map (path_join root) (filter is_template_file files)
      ++ walk_dirs root dirs
  end
with walk_dirs (root : Py.str) (f : forest) : list Py.str :=
  match f with
  | NoDirs => []
  | SubDir name t rest => walk (path_join root name) t ++ walk_dirs root rest
  end.

Definition find_template_files (temp_dir : tree) : list Py.str :=
  match lookup_dir templates_dir_name temp_dir with
  | None => []
  | Some target_dir => walk templates_dir_name target_dir
  end.

(** [extract_all_templates], the loop of the branch taken when the clone
    succeeded: a file with more than ten characters of text is parsed
    inside [try]; when the parse raises, the failure is printed and the
    loop goes on without a record. *)
Fixpoint collect (read_file_content : Py.str -> Py.str)
    (template_files : list Py.str) : list Template.t :=
  match template_files with
  | [] => []
  | filepath :: rest =>
      let content := read_file_content filepath in
      if Py.truthy content && (10 <? List.length content)
      then
        if utf8_encodable filepath
        then parse_prompt_file content filepath
               :: collect read_file_content rest
        else collect read_file_content rest
      else collect read_file_content rest
  end.

(** [session.head(url, timeout=10)]: the status code of the answer, [None]
    when the call raises. *)
Variable head_status : Py.str -> option Z.

(** [get_file_via_mirror]: the text fetched, empty on any failure. *)
Variable get_file_via_mirror : value -> Py.str -> Py.str.

Definition answers (mirror filepath : Py.str) : bool :=
  match head_status (raw_url mirror filepath) with
  | Some status_code => (status_code =? 200)%Z
  | None => false
  end.

(** [extract_via_html]: the first mirror that answers a probe of one of
    the first two files, together with the list of files. *)
Fixpoint probe (mirror_list : list Py.str) : list value :=
  match mirror_list with
  | [] => []
  | mirror :: rest =>
      if existsb (answers mirror) (firstn 2 possible_files)
      then [Str mirror; StrList possible_files]
      else probe rest
  end.

Definition extract_via_html : list value := probe mirrors.

(** The loop over [file_list] of the mirror branch.  Its first statement,
    [filepath.split("/")], is outside of [try]. *)
Fixpoint mirror_loop (mirror : value) (file_list : list value)
    (templates : list Template.t) : outcome :=
  match file_list with
  | [] => Returns templates
  | StrList _ :: _ => AttributeError
  | Str filepath :: rest =>
      let content := get_file_via_mirror mirror filepath in
      if Py.truthy content && (10 <? List.length content)
      then
        if utf8_encodable filepath
        then mirror_loop mirror rest
               (templates ++ [parse_prompt_file content filepath])
        else mirror_loop mirror rest templates
      else mirror_loop mirror rest templates
  end.

(** [extract_all_templates].  [clone_ok] is the result of
    [clone_with_http1] and [temp_dir] the tree it cloned. *)
Definition extract_all_templates (clone_ok : bool) (temp_dir : tree)
    (read_file_content : Py.str -> Py.str) : outcome :=
  match (if clone_ok then find_template_files temp_dir else []) with
  | filepath :: rest => Returns (collect read_file_content (filepath :: rest))
  | [] =>
      match extract_via_html with
      | mirror :: ((_ :: _) as file_list) =>
          mirror_loop mirror file_list []
      | _ => Returns []
      end
  end.

End WithUnicode.

End extract_banana_templates.

(** ** The extraction rules, as the specification words them

    The three rules of the prompt parser are stated over the lines of the
    document, each tagged with its position relative to the fenced blocks.
    They are compared with the loops of the two scripts below. *)

Module ParserRules.

Inductive place := Delimiter | Inside | Outside.

Section WithUnicode.
Context {U : Py.UnicodeData}.

(** Every line, stripped, with its place: a delimiter line toggles the
    "inside a fenced block" flag for the lines after it. *)
Fixpoint annotate (inside : bool) (lines : list Py.str)
  : list (place * Py.str) :=
  match lines with
  | [] => []
  | line :: rest =>
      let stripped := Py.strip line in
      if Py.startswith fence stripped
      then (Delimiter, stripped) :: annotate (negb inside) rest
      else ((if inside then Inside else Outside), stripped)
             :: annotate inside rest
  end.

Definition lines_of (content : Py.str) : list (place * Py.str) :=
  annotate false (Py.split 10 content).

Definition is_inside (p : place) : bool :=
  match p with Inside => true | _ => false end.

Definition is_outside (p : place) : bool :=
  match p with Outside => true | _ => false end.

Definition non_blank (s : Py.str) : bool := Py.truthy s.

Definition is_heading (s : Py.str) : bool := Py.startswith hash_sign s.

Definition longer_than (n : nat) (s : Py.str) : bool := n <? List.length s.

(** Rule 1: a non-blank line inside a fenced block. *)
Definition fenced_line (l : place * Py.str) : bool :=
  is_inside (fst l) && non_blank (snd l).

(** Rule 2: a non-blank, non-heading line of more than 20 characters whose
    share of ASCII letters among its letters exceeds [num/den]. *)
Definition latin_line (num den : nat) (s : Py.str) : bool :=
  non_blank s && negb (is_heading s) && longer_than 20 s
  && english_ratio_exceeds num den s.

(** Rule 3: a non-blank, non-heading line of more than 10 characters. *)
Definition fallback_line (s : Py.str) : bool :=
  non_blank s && negb (is_heading s) && longer_than 10 s.

Definition latin_at (num den : nat) (l : place * Py.str) : bool :=
  latin_line num den (snd l).

Definition fallback_at (l : place * Py.str) : bool :=
  fallback_line (snd l).

Definition first_line (P : place * Py.str -> bool)
    (content : Py.str) : option Py.str :=
  option_map snd (find P (lines_of content)).

Definition rule1 (content : Py.str) : option Py.str :=
  first_line fenced_line content.

Definition rule2 (num den : nat) (content : Py.str) : option Py.str :=
  first_line (latin_at num den) content.

Definition rule3 (content : Py.str) : option Py.str :=
  first_line fallback_at content.

(** The rules in order, first success winning, capped at 500 characters. *)
Definition ordered (num den : nat) (content : Py.str) : option Py.str :=
  option_map (Py.slice_to 500)
    match rule1 content with
    | Some p => Some p
    | None =>
        match rule2 num den content with
        | Some p => Some p
        | None => rule3 content
        end
    end.

(** The single pass of [extract_banana_templates]: a line qualifies by
    rule 1 when it is inside a block, by rule 2 when it is outside. *)
Definition single_pass_line (num den : nat) (l : place * Py.str) : bool :=
  fenced_line l || is_outside (fst l) && latin_at num den l.

End WithUnicode.

End ParserRules.

(** ** Numeric identifiers *)

Module Ids.

Section WithUnicode.
Context {U : Py.UnicodeData}.

(** The numeric suffix of an identifier, when [int] accepts what is left
    once every ["nbp-"] is deleted. *)
Definition suffix_of (s : Py.str) : option Z :=
  Py.int (Py.replace (Py.u "nbp-") [] s).

Definition id_num (item : Template.t) : option Z :=
  match Template.id item with
  | Some s => suffix_of s
  | None => None
  end.

(** An item is readable when it has no id or its id has a numeric suffix. *)
Definition readable (item : Template.t) : Prop :=
  match Template.id item with
  | Some s => suffix_of s <> None
  | None => True
  end.

(** The numeric suffixes of the items that have one. *)
Fixpoint suffixes (l : list Template.t) : list Z :=
  match l with
  | [] => []
  | item :: rest =>
      match id_num item with
      | Some n => n :: suffixes rest
      | None => suffixes rest
      end
  end.

(** The largest numeric suffix among the items, 0 when none exceeds it. *)
Definition max_suffix (l : list Template.t) : Z :=
  fold_left Z.max (suffixes l) 0%Z.

(** Strictly increasing lists of numbers above [lo]. *)
Fixpoint increasing_from (lo : Z) (l : list Z) : Prop :=
  match l with
  | [] => True
  | n :: rest => (lo < n)%Z /\ increasing_from n rest
  end.

(** A catalog is well numbered when every item has an identifier with a
    positive numeric suffix and the suffixes strictly increase along the
    items. *)
Definition well_numbered (l : list Template.t) : Prop :=
  exists ns, map id_num l = map Some ns /\ increasing_from 0 ns.

(** The identifiers of the records accepted in a run: each one is the
    largest numeric suffix known at that moment plus one, where the records
    accepted before it are known. *)
Fixpoint allocated (known news : list Template.t) : Prop :=
  match news with
  | [] => True
  | item :: rest =>
      Template.id item
      = Some (Py.u "nbp-" ++ Py.format_03d (max_suffix known + 1))
      /\ allocated (known ++ [item]) rest
  end.

(** An identifier of the shape ["nbp-"] followed by decimal digits. *)
Definition is_nbp_decimal (s : Py.str) : bool :=
  Py.startswith (Py.u "nbp-") s
  && Py.truthy (skipn 4 s)
  && forallb Py.is_ascii_digit (skipn 4 s).

End WithUnicode.

End Ids.

(** ** Sequential numbering, for any padding width

    The allocation rule as the specification words it, for one padding
    width: a record takes "nbp-" followed by the largest numeric suffix
    known when it is accepted, plus one, padded with zeros to [width]
    digits. *)

Module Numbering.

Definition rendered (width : nat) (n : Z) : Py.str :=
  Py.u "nbp-" ++ Py.zfill width (Py.decimal (Z.to_N n)).

Section WithUnicode.
Context {U : Py.UnicodeData}.

Fixpoint sequential (width : nat) (known news : list Template.t) : Prop :=
  match news with
  | [] => True
  | item :: rest =>
      Template.id item = Some (rendered width (Ids.max_suffix known + 1))
      /\ sequential width (known ++ [item]) rest
  end.

End WithUnicode.

End Numbering.

(** ** The catalog file

    [with open(path, 'w') as f: json.dump(data, f, ...)]: opening for
    writing empties the file, then the text is written front to back.  A
    fault stops the write; what was written before it stays in the file. *)

Module CatalogFile.

Definition bytes := list N.

Inductive fault :=
| OpenFails
| WriteFailsAfter (n : nat).

(** The file after writing [text] to it, and whether the write completed. *)
Definition write_text (flt : option fault) (text file : bytes)
  : bytes * bool :=
  match flt with
  | None => (text, true)
  | Some OpenFails => (file, false)
  | Some (WriteFailsAfter n) => (firstn n text, false)
  end.

Section WithSerializer.

(** [json.dump(data, f, ensure_ascii=False, indent=2)], from a library. *)
Variable json_dump : Catalog -> bytes.

(** Step 5 of [main] on the file. *)
Definition commit (flt : option fault)
    (r : result extract_from_github.outcome) (file : bytes) : bytes * bool :=
  match r with
  | Ok (extract_from_github.Write data) =>
      write_text flt (json_dump data) file
  | Ok extract_from_github.NoWrite => (file, true)
  | Raise _ => (file, false)
  end.

End WithSerializer.

End CatalogFile.

(** ** The files of a checkout

    [entry root t file path]: the directory [t], whose own path is [root],
    holds at any depth a file named [file], and [path] is the path of that
    file. *)

Module Locator.

Inductive entry : Py.str -> tree -> Py.str -> Py.str -> Prop :=
| entry_file (root : Py.str) (files : list Py.str) (dirs : forest)
    (file : Py.str) :
    In file files ->
    entry root (Dir files dirs) file (path_join root file)
| entry_sub (root : Py.str) (files : list Py.str) (dirs : forest)
    (file path : Py.str) :
    entry_in root dirs file path ->
    entry root (Dir files dirs) file path
with entry_in : Py.str -> forest -> Py.str -> Py.str -> Prop :=
| entry_first (root name : Py.str) (t : tree) (rest : forest)
    (file path : Py.str) :
    entry (path_join root name) t file path ->
    entry_in root (SubDir name t rest) file path
| entry_later (root name : Py.str) (t : tree) (rest : forest)
    (file path : Py.str) :
    entry_in root rest file path ->
    entry_in root (SubDir name t rest) file path.

End Locator.

(** ** Unicode tables for the examples

    The examples below use ASCII and CJK text only; for them any table
    gives the same results.  [plain_tables] treats every other code point as
    a caseless non-letter. *)
Definition plain_tables : Py.UnicodeData :=
  {| Py.ud_alpha := fun _ => false;
     Py.ud_lower := fun c => [c];
     Py.ud_title := fun c => [c];
     Py.ud_cased := fun _ => false;
     Py.ud_case_ignorable := fun _ => false;
     Py.ud_decimal := fun _ => None |}.

(** An item that carries nothing but an identifier. *)
Definition item_with_id (s : Py.str) : Template.t :=
  {| Template.id := Some s; Template.title := []; Template.channels := [];
     Template.materials := []; Template.industries := [];
     Template.ratio := []; Template.preview := []; Template.image := [];
     Template.prompt := None; Template.prompt_params := [];
     Template.tips := [];
     Template.src := {| Template.name := []; Template.label := [];
                        Template.url := [] |} |}.

(** The aspect ratios of the data model. *)
Definition aspect_ratios : list Py.str :=
  [Py.u "9:16"; Py.u "16:9"; Py.u "3:4"; Py.u "1:1"].

(** [unlines] joins the lines of an example document. *)
Fixpoint unlines (lines : list Py.str) : Py.str :=
  match lines with
  | [] => []
  | [l] => l
  | l :: rest => l ++ 10%N :: unlines rest
  end.

(** ** Example inputs *)

Module Examples.

(** A file system for [read_file_content]: the text of the listed paths,
    the empty string for any other path. *)
Definition read_from (texts : list (Py.str * Py.str)) (filepath : Py.str)
  : Py.str :=
  match find (fun e => Py.str_eqb (fst e) filepath) texts with
  | Some e => snd e
  | None => []
  end.

(** Scenario A of the specification. *)
Definition fashion_doc : Py.str :=
  unlines [fence; Py.u "Fashion photography, editorial style"; fence].

Definition fashion_path : Py.str :=
  Py.u "gpt4o-image-prompts-master/摄影/Fashion-Photography.md".

(** A document that consists of headings. *)
Definition headings_doc : Py.str :=
  unlines [Py.u "# Fashion"; Py.u "## Editorial notes"].

(** A document whose only line has between 11 and 20 characters. *)
Definition short_doc : Py.str := Py.u "A short line.".

(** A long English line, then a fenced block. *)
Definition intro_then_block_doc : Py.str :=
  unlines [Py.u "This is a long English description line";
           fence; Py.u "actual prompt"; fence].

(** A checkout with the same document under two names. *)
Definition twin_repo : tree :=
  Dir []
    (SubDir templates_dir_name
       (Dir [Py.u "Fashion-Photography.md"; Py.u "Fashion-Copy.md"] NoDirs)
       NoDirs).

Definition twin_texts : list (Py.str * Py.str) :=
  [(Py.u "gpt4o-image-prompts-master/Fashion-Photography.md", fashion_doc);
   (Py.u "gpt4o-image-prompts-master/Fashion-Copy.md", fashion_doc)].

(** A checkout with readme files in several spellings. *)
Definition readme_repo : tree :=
  Dir [Py.u "README.md"]
    (SubDir templates_dir_name
       (Dir [Py.u "README.md"; Py.u "readme.md"; Py.u "Readme.MD";
             Py.u "Logo.md"]
          (SubDir (Py.u "Portrait")
             (Dir [Py.u "Readme.md"; Py.u "Anime.md"; Py.u "notes.txt"]
                NoDirs)
             NoDirs))
       NoDirs).

(** Scenario B: the catalog holds a logo record, the checkout a document
    with the same prompt. *)
Definition logo_prompt : Py.str :=
  Py.u "Professional logo design, minimalist vector mark, flat colors".

Definition logo_item : Template.t :=
  {| Template.id := Some (Py.u "nbp-007");
     Template.title := Py.u "Nano Banana·Logo";
     Template.channels := [Py.u "电商"];
     Template.materials := [Py.u "产品设计"];
     Template.industries := [Py.u "通用"];
     Template.ratio := Py.u "1:1";
     Template.preview := []; Template.image := [];
     Template.prompt := Some logo_prompt;
     Template.prompt_params := generic_params;
     Template.tips := [];
     Template.src := {| Template.name := Py.u "@xianyu110";
                        Template.label := Py.u "GitHub";
                        Template.url := blob_url |} |}.

Definition logo_catalog : Catalog :=
  {| meta_version := Py.u "2024-01-01";
     meta_updated_at := Py.u "2024-01-01T08:00:00";
     items := [logo_item] |}.

Definition logo_repo : tree :=
  Dir [] (SubDir templates_dir_name (Dir [Py.u "Logo.md"] NoDirs) NoDirs).

Definition logo_texts : list (Py.str * Py.str) :=
  [(Py.u "gpt4o-image-prompts-master/Logo.md",
    unlines [fence; logo_prompt; fence])].

Definition empty_catalog : Catalog :=
  {| meta_version := Py.u "2024-01-01";
     meta_updated_at := Py.u "2024-01-01T08:00:00";
     items := [] |}.

Definition today : Py.str := Py.u "2024-06-30".
Definition now : Py.str := Py.u "2024-06-30T12:00:00".

(** A rendering of a catalog, for the examples about the file: the two
    meta fields, then the identifiers of the items. *)
Definition render (data : Catalog) : CatalogFile.bytes :=
  Py.u "{meta: {version: " ++ meta_version data
  ++ Py.u ", updated_at: " ++ meta_updated_at data
  ++ Py.u "}, items: ["
  ++ List.concat (map (fun item =>
                    match Template.id item with
                    | Some s => s ++ Py.u ";"
                    | None => Py.u "?;"
                    end) (items data))
  ++ Py.u "]}".

(** The digest of the examples: any function will do. *)
Definition md5_zero (filepath : Py.str) : Z := 0.

End Examples.

(** A second file next to the one of Scenario A. *)
Definition second_fashion_path : Py.str :=
  Py.u "gpt4o-image-prompts-master/摄影/Fashion-Copy.md".

(** ** The shape of an extracted prompt

    [clean n content p]: [p] is a line of [content], stripped and cut to [n]
    characters; it is not empty, holds no line break and does not begin
    with a blank, nor end with one unless the cut removed its end. *)

Module Shape.

Definition clean (n : nat) (content p : Py.str) : Prop :=
  exists line,
    In line (Py.split 10 content)
    /\ p = Py.slice_to n (Py.strip line)
    /\ p <> []
    /\ List.length p <= n
    /\ ~ In 10%N p
    /\ Py.isspace (hd 0%N p) = false
    /\ (List.length (Py.strip line) <= n ->
        Py.isspace (last p 0%N) = false).

End Shape.

(** * Properties *)

(** ** Strings *)

Module PyFacts.

Lemma str_eqb_eq (a b : Py.str) : Py.str_eqb a b = true <-> a = b.
Proof.
  unfold Py.str_eqb. destruct (list_eq_dec N.eq_dec a b); split; congruence.
Qed.

Lemma str_eqb_neq (a b : Py.str) : Py.str_eqb a b = false <-> a <> b.
Proof.
  unfold Py.str_eqb. destruct (list_eq_dec N.eq_dec a b); split; congruence.
Qed.

Lemma str_eqb_refl (a : Py.str) : Py.str_eqb a a = true.
Proof. apply str_eqb_eq. reflexivity. Qed.

Lemma truthy_false (s : Py.str) : Py.truthy s = false <-> s = [].
Proof. destruct s; simpl; split; congruence. Qed.

Lemma truthy_true (s : Py.str) : Py.truthy s = true <-> s <> [].
Proof. destruct s; simpl; split; congruence. Qed.

Lemma slice_to_length (n : nat) (s : Py.str) :
  List.length (Py.slice_to n s) <= n.
Proof. unfold Py.slice_to. apply firstn_le_length. Qed.

Lemma slice_to_short (n : nat) (s : Py.str) :
  List.length s <= n -> Py.slice_to n s = s.
Proof. unfold Py.slice_to. apply firstn_all2. Qed.

Lemma slice_to_truthy (n : nat) (s : Py.str) :
  Py.truthy (Py.slice_to (S n) s) = Py.truthy s.
Proof. destruct s; reflexivity. Qed.

(** Digits. *)

Definition all_digits (s : Py.str) : Prop :=
  Forall (fun c => Py.is_ascii_digit c = true) s.

Definition digit_step (a : Z) (c : N) : Z := (10 * a + Z.of_N (c - 48))%Z.

Lemma digit_facts (c : N) :
  Py.is_ascii_digit c = true ->
  Py.is_ascii c = true /\ Py.is_c_space c = false /\ c <> 43%N /\ c <> 45%N
  /\ c <> 110%N /\ (c =? 95)%N = false.
Proof.
  unfold Py.is_ascii_digit, Py.is_ascii, Py.is_c_space. intros H.
  apply andb_prop in H. destruct H as [H1 H2].
  apply N.leb_le in H1. apply N.leb_le in H2.
  repeat split; try lia.
  - apply N.ltb_lt. lia.
  - rewrite orb_false_iff, andb_false_iff, N.eqb_neq.
    split; [right; apply N.leb_gt; lia | lia].
  - apply N.eqb_neq. lia.
Qed.

Lemma digit_of_mod (n : N) : Py.is_ascii_digit (48 + n mod 10) = true.
Proof.
  unfold Py.is_ascii_digit.
  assert (n mod 10 < 10)%N by (apply N.mod_lt; lia).
  generalize dependent (n mod 10)%N. intros m Hm.
  apply andb_true_intro. split; apply N.leb_le; lia.
Qed.

Lemma digits_from_all (fuel : nat) :
  forall n acc, all_digits acc -> all_digits (Py.digits_from fuel n acc).
Proof.
  induction fuel as [|f IH]; intros n acc Hacc; simpl; [assumption|].
  assert (all_digits ((48 + n mod 10)%N :: acc))
    by (constructor; [apply digit_of_mod | assumption]).
  destruct (n / 10 =? 0)%N; [assumption | apply IH; assumption].
Qed.

Lemma digits_from_nonempty (fuel : nat) :
  forall n acc, Py.digits_from (S fuel) n acc <> [].
Proof.
  induction fuel as [|f IH]; intros n acc.
  - simpl. destruct (n / 10 =? 0)%N; discriminate.
  - change (Py.digits_from (S (S f)) n acc)
      with (let acc' := (48 + n mod 10)%N :: acc in
            if (n / 10 =? 0)%N then acc'
            else Py.digits_from (S f) (n / 10)%N acc').
    cbv zeta. destruct (n / 10 =? 0)%N; [discriminate | apply IH].
Qed.

Lemma digits_from_S (f : nat) (n : N) (acc : Py.str) :
  Py.digits_from (S f) n acc
  = if (n / 10 =? 0)%N then (48 + n mod 10)%N :: acc
    else Py.digits_from f (n / 10)%N ((48 + n mod 10)%N :: acc).
Proof. reflexivity. Qed.

Lemma digit_step_add (a : Z) (m : N) :
  digit_step a (48 + m) = (10 * a + Z.of_N m)%Z.
Proof. unfold digit_step. f_equal. f_equal. lia. Qed.

(** The digits written for [n] read back as [n]. *)
Lemma digits_from_value (fuel : nat) :
  forall n acc,
    (n < 2 ^ N.of_nat fuel)%N ->
    fold_left digit_step (Py.digits_from fuel n acc) 0%Z
    = fold_left digit_step acc (Z.of_N n).
Proof.
  induction fuel as [|f IH]; intros n acc Hn.
  - simpl in *. assert (n = 0%N) by lia. subst. reflexivity.
  - rewrite digits_from_S.
    pose proof (N.div_mod n 10 ltac:(lia)) as Hdm.
    destruct (n / 10 =? 0)%N eqn:E.
    + apply N.eqb_eq in E. cbn [fold_left]. rewrite digit_step_add.
      f_equal. lia.
    + rewrite IH.
      * cbn [fold_left]. rewrite digit_step_add. f_equal. lia.
      * rewrite Nat2N.inj_succ, N.pow_succ_r' in Hn.
        apply N.Div0.div_lt_upper_bound. lia.
Qed.

Lemma decimal_all_digits (n : N) : all_digits (Py.decimal n).
Proof. apply digits_from_all. constructor. Qed.

Lemma decimal_nonempty (n : N) : Py.decimal n <> [].
Proof. apply digits_from_nonempty. Qed.

Lemma decimal_value (n : N) :
  fold_left digit_step (Py.decimal n) 0%Z = Z.of_N n.
Proof.
  unfold Py.decimal. rewrite digits_from_value; [reflexivity|].
  rewrite Nat2N.inj_succ, N2Nat.id.
  destruct n as [|p]; [reflexivity|].
  apply N.log2_spec. lia.
Qed.

Lemma zfill_all_digits (w : nat) (ds : Py.str) :
  all_digits ds -> all_digits (Py.zfill w ds).
Proof.
  intros H. unfold Py.zfill, all_digits. apply Forall_app. split; [|exact H].
  apply Forall_forall. intros c Hc. apply repeat_spec in Hc. subst.
  reflexivity.
Qed.

Lemma zfill_nonempty (w : nat) (ds : Py.str) :
  ds <> [] -> Py.zfill w ds <> [].
Proof.
  unfold Py.zfill. intros H E. apply app_eq_nil in E. tauto.
Qed.

Lemma zfill_value (w : nat) (ds : Py.str) :
  fold_left digit_step (Py.zfill w ds) 0%Z = fold_left digit_step ds 0%Z.
Proof.
  unfold Py.zfill. rewrite fold_left_app. f_equal.
  induction (w - List.length ds) as [|k IH]; [reflexivity|].
  simpl. exact IH.
Qed.

End PyFacts.

(** ** Reading and writing numbers *)

Module IntFacts.

Import PyFacts.

Section WithUnicode.
Context {U : Py.UnicodeData}.

Lemma to_ascii_digits (ds : Py.str) :
  all_digits ds -> map Py.to_ascii_char ds = ds.
Proof.
  induction 1 as [|c r Hc _ IH]; [reflexivity|].
  simpl. rewrite IH. unfold Py.to_ascii_char.
  destruct (digit_facts c Hc) as [-> _]. reflexivity.
Qed.

Lemma skip_c_space_digits (ds : Py.str) :
  all_digits ds -> Py.skip_c_space ds = ds.
Proof.
  destruct 1 as [|c r Hc _]; [reflexivity|].
  simpl. destruct (digit_facts c Hc) as (_ & -> & _). reflexivity.
Qed.

Lemma digits_value_all (ds : Py.str) :
  all_digits ds ->
  forall acc after_digit,
    ds <> [] \/ after_digit = true ->
    Py.digits_value acc after_digit ds = Some (fold_left digit_step ds acc).
Proof.
  induction 1 as [|c r Hc _ IH]; intros acc b Hb.
  - destruct Hb as [Hb | ->]; [congruence | reflexivity].
  - simpl. rewrite Hc. apply IH. right. reflexivity.
Qed.

(** [int] reads a non-empty string of ASCII digits as its decimal value. *)
Lemma int_digits (ds : Py.str) :
  all_digits ds -> ds <> [] ->
  Py.int ds = Some (fold_left digit_step ds 0%Z).
Proof.
  intros Hd Hne. unfold Py.int.
  rewrite (to_ascii_digits Hd), (skip_c_space_digits Hd).
  assert (Hr : all_digits (rev ds)).
  { apply Forall_forall. intros c Hc. apply in_rev in Hc.
    revert c Hc. apply Forall_forall. exact Hd. }
  rewrite (skip_c_space_digits Hr), rev_involutive.
  destruct ds as [|c r]; [congruence|].
  pose proof (Forall_inv Hd) as Hc. cbv beta in Hc.
  destruct (digit_facts c Hc) as (_ & _ & H43 & H45 & _).
  apply N.eqb_neq in H43. apply N.eqb_neq in H45. rewrite H43, H45.
  apply (digits_value_all Hd). left. discriminate.
Qed.

Lemma replace_absent (old new : Py.str) (c0 : N) (s : Py.str) :
  Forall (fun c => c <> c0) s ->
  Py.replace_from (c0 :: old) new 0 s = s.
Proof.
  induction 1 as [|c r Hc _ IH]; [reflexivity|].
  simpl. apply N.eqb_neq in Hc. rewrite N.eqb_sym in Hc. rewrite Hc.
  simpl. rewrite IH. reflexivity.
Qed.

Lemma replace_prefix_digits (ds : Py.str) :
  all_digits ds ->
  Py.replace (Py.u "nbp-") [] (Py.u "nbp-" ++ ds) = ds.
Proof.
  intros Hd. unfold Py.replace.
  change (Py.u "nbp-") with [110%N; 98%N; 112%N; 45%N].
  simpl. apply replace_absent.
  eapply Forall_impl; [|exact Hd]. intros c Hc.
  apply (digit_facts c Hc).
Qed.

Lemma format_03d_digits (n : Z) :
  (0 <= n)%Z ->
  all_digits (Py.format_03d n) /\ Py.format_03d n <> []
  /\ fold_left digit_step (Py.format_03d n) 0%Z = n.
Proof.
  intros Hn. unfold Py.format_03d.
  destruct (n <? 0)%Z eqn:E; [apply Z.ltb_lt in E; lia|].
  split; [|split].
  - apply zfill_all_digits, decimal_all_digits.
  - apply zfill_nonempty, decimal_nonempty.
  - rewrite zfill_value, decimal_value. lia.
Qed.

(** An identifier written by [get_next_id] reads back as its number. *)
Lemma suffix_of_formatted (n : Z) :
  (0 <= n)%Z -> Ids.suffix_of (Py.u "nbp-" ++ Py.format_03d n) = Some n.
Proof.
  intros Hn. destruct (format_03d_digits Hn) as (Hd & Hne & Hv).
  unfold Ids.suffix_of. rewrite (replace_prefix_digits Hd).
  rewrite (int_digits Hd Hne), Hv. reflexivity.
Qed.

End WithUnicode.

End IntFacts.

(** ** The identifier allocator *)

Module IdFacts.

Import PyFacts IntFacts.

Section WithUnicode.
Context {U : Py.UnicodeData}.

Lemma suffixes_app (l1 l2 : list Template.t) :
  Ids.suffixes (l1 ++ l2) = Ids.suffixes l1 ++ Ids.suffixes l2.
Proof.
  induction l1 as [|x l1 IH]; [reflexivity|].
  simpl. destruct (Ids.id_num x); simpl; rewrite IH; reflexivity.
Qed.

Lemma fold_max_ge (l : list Z) :
  forall m, (m <= fold_left Z.max l m)%Z.
Proof.
  induction l as [|n l IH]; intros m; simpl; [lia|].
  specialize (IH (Z.max m n)). lia.
Qed.

Lemma fold_max_in (l : list Z) :
  forall m n, In n l -> (n <= fold_left Z.max l m)%Z.
Proof.
  induction l as [|k l IH]; intros m n Hin; [contradiction|].
  simpl. destruct Hin as [-> | Hin].
  - pose proof (fold_max_ge l (Z.max m n)). lia.
  - apply IH. exact Hin.
Qed.

Lemma max_suffix_nonneg (l : list Template.t) : (0 <= Ids.max_suffix l)%Z.
Proof. apply fold_max_ge. Qed.

Lemma suffixes_in (l : list Template.t) (x : Template.t) (n : Z) :
  In x l -> Ids.id_num x = Some n -> In n (Ids.suffixes l).
Proof.
  induction l as [|y l IH]; intros Hin Hn; [contradiction|].
  simpl. destruct Hin as [-> | Hin].
  - rewrite Hn. left. reflexivity.
  - destruct (Ids.id_num y); [right|]; apply IH; assumption.
Qed.

(** No known identifier has a number above [max_suffix]. *)
Lemma max_suffix_bound (l : list Template.t) (x : Template.t) (n : Z) :
  In x l -> Ids.id_num x = Some n -> (n <= Ids.max_suffix l)%Z.
Proof.
  intros Hin Hn. apply fold_max_in. eapply suffixes_in; eassumption.
Qed.

(** The loop of [get_next_id] folds [max] over the numeric suffixes, and
    raises exactly when some identifier has none. *)
Lemma get_next_id_loop_ok (l : list Template.t) :
  Forall Ids.readable l ->
  forall m,
    extract_from_github.get_next_id_loop m l
    = Ok (fold_left Z.max (Ids.suffixes l) m).
Proof.
  induction 1 as [|x l Hx _ IH]; intros m; [reflexivity|].
  simpl. unfold Ids.readable in Hx. unfold Ids.id_num.
  destruct (Template.id x) as [s|]; [|apply IH].
  fold (Ids.suffix_of s). destruct (Ids.suffix_of s) as [n|]; [|congruence].
  simpl. rewrite IH. f_equal. f_equal.
  destruct (m <? n)%Z eqn:E; [apply Z.ltb_lt in E | apply Z.ltb_ge in E]; lia.
Qed.

Lemma get_next_id_loop_raise (l : list Template.t) :
  ~ Forall Ids.readable l ->
  forall m, extract_from_github.get_next_id_loop m l = Raise ValueError.
Proof.
  induction l as [|x l IH]; intros Hbad m.
  - exfalso. apply Hbad. constructor.
  - simpl. destruct (Template.id x) as [s|] eqn:Ex.
    + fold (Ids.suffix_of s). destruct (Ids.suffix_of s) as [n|] eqn:Es;
        [|reflexivity].
      apply IH. intros Hl. apply Hbad. constructor; [|exact Hl].
      unfold Ids.readable. rewrite Ex, Es. discriminate.
    + apply IH. intros Hl. apply Hbad. constructor; [|exact Hl].
      unfold Ids.readable. rewrite Ex. exact I.
Qed.

Lemma readable_dec (l : list Template.t) :
  Forall Ids.readable l \/ ~ Forall Ids.readable l.
Proof.
  induction l as [|x l [IH|IH]].
  - left. constructor.
  - assert (Hx : Ids.readable x \/ ~ Ids.readable x).
    { unfold Ids.readable. destruct (Template.id x) as [s|]; [|left; exact I].
      destruct (Ids.suffix_of s); [left; discriminate | right; congruence]. }
    destruct Hx as [Hx|Hx].
    + left. constructor; assumption.
    + right. intros H. inversion H. contradiction.
  - right. intros H. inversion H. contradiction.
Qed.

Lemma get_next_id_ok (l : list Template.t) :
  Forall Ids.readable l ->
  extract_from_github.get_next_id l
  = Ok (Py.u "nbp-" ++ Py.format_03d (Ids.max_suffix l + 1)).
Proof.
  intros H. unfold extract_from_github.get_next_id.
  rewrite (get_next_id_loop_ok H). reflexivity.
Qed.

Lemma get_next_id_raise (l : list Template.t) :
  ~ Forall Ids.readable l ->
  extract_from_github.get_next_id l = Raise ValueError.
Proof.
  intros H. unfold extract_from_github.get_next_id.
  rewrite (get_next_id_loop_raise H). reflexivity.
Qed.

Lemma get_next_id_inv (l : list Template.t) (s : Py.str) :
  extract_from_github.get_next_id l = Ok s ->
  Forall Ids.readable l
  /\ s = Py.u "nbp-" ++ Py.format_03d (Ids.max_suffix l + 1).
Proof.
  intros H. destruct (readable_dec l) as [Hr|Hr].
  - rewrite (get_next_id_ok Hr) in H. split; [exact Hr | congruence].
  - rewrite (get_next_id_raise Hr) in H. discriminate.
Qed.

End WithUnicode.

End IdFacts.

(** ** The merge loop *)

Module MergeFacts.

Import PyFacts IntFacts IdFacts.

Section WithUnicode.
Context {U : Py.UnicodeData}.

Lemma id_set_id (s : Py.str) (x : Template.t) :
  Template.id (Template.set_id s x) = Some s.
Proof. reflexivity. Qed.

Lemma get_prompt_set_id (s : Py.str) (x : Template.t) :
  Template.get_prompt (Template.set_id s x) = Template.get_prompt x.
Proof. reflexivity. Qed.

(** One step of the loop of step 4, as an equation. *)
Lemma parse_loop_cons (read : Py.str -> Py.str)
    (existing acc : list Template.t) (filepath : Py.str)
    (rest : list Py.str) :
  extract_from_github.parse_loop read existing acc (filepath :: rest)
  = if Py.truthy (read filepath) then
      match extract_from_github.parse_prompt_file (read filepath) filepath with
      | Some template =>
          if extract_from_github.is_duplicate existing template
          then extract_from_github.parse_loop read existing acc rest
          else
            match extract_from_github.get_next_id (existing ++ acc) with
            | Ok new_id =>
                extract_from_github.parse_loop read existing
                  (acc ++ [Template.set_id new_id template]) rest
            | Raise e => Raise e
            end
      | None => extract_from_github.parse_loop read existing acc rest
      end
    else extract_from_github.parse_loop read existing acc rest.
Proof. reflexivity. Qed.

(** The loop only appends, and every record it appends gets the largest
    known number plus one. *)
Lemma parse_loop_allocated (read : Py.str -> Py.str)
    (existing : list Template.t) (files : list Py.str) :
  forall acc out,
    extract_from_github.parse_loop read existing acc files = Ok out ->
    exists news, out = acc ++ news /\ Ids.allocated (existing ++ acc) news.
Proof.
  induction files as [|filepath rest IH]; intros acc out H.
  - simpl in H. injection H as <-. exists []. rewrite app_nil_r.
    split; [reflexivity | exact I].
  - rewrite parse_loop_cons in H.
    destruct (Py.truthy (read filepath)); [|apply IH; exact H].
    destruct (extract_from_github.parse_prompt_file (read filepath) filepath)
      as [template|]; [|apply IH; exact H].
    destruct (extract_from_github.is_duplicate existing template);
      [apply IH; exact H|].
    destruct (extract_from_github.get_next_id (existing ++ acc))
      as [new_id|e] eqn:Eid; [|discriminate].
    apply get_next_id_inv in Eid. destruct Eid as [_ ->].
    apply IH in H. destruct H as (news & -> & Hall).
    exists (Template.set_id
              (Py.u "nbp-"
               ++ Py.format_03d (Ids.max_suffix (existing ++ acc) + 1))
              template :: news).
    split; [rewrite <- app_assoc; reflexivity|].
    simpl. split; [reflexivity|].
    rewrite <- app_assoc. exact Hall.
Qed.

Lemma increasing_above (l : list Z) :
  forall lo, Ids.increasing_from lo l -> Forall (fun n => (lo < n)%Z) l.
Proof.
  induction l as [|n l IH]; intros lo H; [constructor|].
  destruct H as [Hlo Hrest]. constructor; [exact Hlo|].
  apply IH in Hrest. eapply Forall_impl; [|exact Hrest].
  intros k Hk. cbv beta in Hk. lia.
Qed.

Lemma increasing_NoDup (l : list Z) :
  forall lo, Ids.increasing_from lo l -> NoDup l.
Proof.
  induction l as [|n l IH]; intros lo H; [constructor|].
  destruct H as [_ Hrest]. constructor; [|eapply IH; exact Hrest].
  intros Hin. apply increasing_above in Hrest.
  rewrite Forall_forall in Hrest. specialize (Hrest n Hin). lia.
Qed.

Lemma increasing_app (ns : list Z) :
  forall lo ms,
    Ids.increasing_from lo ns ->
    Ids.increasing_from (fold_left Z.max ns lo) ms ->
    Ids.increasing_from lo (ns ++ ms).
Proof.
  induction ns as [|n ns IH]; intros lo ms Hns Hms; [exact Hms|].
  destruct Hns as [Hlo Hns]. simpl. split; [exact Hlo|].
  apply IH; [exact Hns|].
  simpl in Hms. replace (Z.max lo n) with n in Hms by lia. exact Hms.
Qed.

Lemma suffixes_of_numbered (l : list Template.t) :
  forall ns, map Ids.id_num l = map Some ns -> Ids.suffixes l = ns.
Proof.
  induction l as [|x l IH]; intros [|n ns] H; try discriminate;
    [reflexivity|].
  simpl in H. injection H as Hx Hl. simpl. rewrite Hx.
  f_equal. apply IH. exact Hl.
Qed.

(** What [allocated] gives: every new record has a number, and the numbers
    strictly increase from the largest known one. *)
Lemma allocated_numbers (news : list Template.t) :
  forall known,
    Ids.allocated known news ->
    map Ids.id_num news = map Some (Ids.suffixes news)
    /\ Ids.increasing_from (Ids.max_suffix known) (Ids.suffixes news).
Proof.
  induction news as [|item rest IH]; intros known H;
    [split; [reflexivity|exact I]|].
  destruct H as [Hid Hrest].
  assert (Hnum : Ids.id_num item = Some (Ids.max_suffix known + 1)%Z).
  { unfold Ids.id_num. rewrite Hid. apply suffix_of_formatted.
    pose proof (max_suffix_nonneg known). lia. }
  apply IH in Hrest. destruct Hrest as [Hmap Hinc].
  assert (Hmax : Ids.max_suffix (known ++ [item])
                 = (Ids.max_suffix known + 1)%Z).
  { unfold Ids.max_suffix. rewrite suffixes_app, fold_left_app.
    cbn [Ids.suffixes]. rewrite Hnum. cbn [fold_left].
    fold (Ids.max_suffix known). pose proof (max_suffix_nonneg known). lia. }
  rewrite Hmax in Hinc.
  simpl. rewrite Hnum. simpl. split.
  - f_equal. exact Hmap.
  - split; [lia | exact Hinc].
Qed.

Lemma id_num_of_id (a b : Template.t) :
  Template.id a = Template.id b -> Ids.id_num a = Ids.id_num b.
Proof. unfold Ids.id_num. intros ->. reflexivity. Qed.

Lemma numbered_NoDup_ids (l : list Template.t) (ns : list Z) :
  map Ids.id_num l = map Some ns -> NoDup ns -> NoDup (map Template.id l).
Proof.
  intros Hmap Hnd.
  apply (NoDup_map_inv
           (fun o => match o with
                     | Some s => Ids.suffix_of s
                     | None => None
                     end)).
  rewrite map_map.
  change (NoDup (map Ids.id_num l)). rewrite Hmap.
  clear Hmap. induction Hnd as [|n ns Hn _ IH]; [constructor|].
  simpl. constructor; [|exact IH].
  intros Hin. apply in_map_iff in Hin. destruct Hin as (k & E & Hk).
  injection E as ->. contradiction.
Qed.

(** A record accepted in a run never takes the identifier of a known one. *)
Lemma allocated_fresh (known news : list Template.t) :
  Ids.allocated known news ->
  forall e item,
    In e known -> In item news -> Template.id e <> Template.id item.
Proof.
  intros Hall e item He Hitem Heq.
  destruct (allocated_numbers _ _ Hall) as [Hmap Hinc].
  apply increasing_above in Hinc. rewrite Forall_forall in Hinc.
  assert (Hin : In (Ids.id_num item) (map Ids.id_num news))
    by (apply in_map; exact Hitem).
  rewrite Hmap in Hin. apply in_map_iff in Hin.
  destruct Hin as (n & Hn & Hnin).
  specialize (Hinc n Hnin).
  apply id_num_of_id in Heq. rewrite <- Hn in Heq.
  pose proof (max_suffix_bound known e He Heq). lia.
Qed.

Lemma well_numbered_app (known news : list Template.t) :
  Ids.well_numbered known ->
  Ids.allocated known news ->
  Ids.well_numbered (known ++ news).
Proof.
  intros (ns & Hns & Hinc) Hall.
  destruct (allocated_numbers _ _ Hall) as [Hmap Hnew].
  exists (ns ++ Ids.suffixes news). split.
  - rewrite !map_app, Hns, Hmap. reflexivity.
  - apply increasing_app; [exact Hinc|].
    unfold Ids.max_suffix in Hnew.
    rewrite (suffixes_of_numbered _ _ Hns) in Hnew. exact Hnew.
Qed.

Lemma well_numbered_NoDup (l : list Template.t) :
  Ids.well_numbered l -> NoDup (map Template.id l).
Proof.
  intros (ns & Hns & Hinc).
  eapply numbered_NoDup_ids; [exact Hns|].
  eapply increasing_NoDup. exact Hinc.
Qed.

(** The loop does not raise when every known identifier has a number. *)
Lemma parse_loop_total (read : Py.str -> Py.str)
    (existing : list Template.t) (files : list Py.str) :
  forall acc,
    Forall Ids.readable (existing ++ acc) ->
    exists out,
      extract_from_github.parse_loop read existing acc files = Ok out.
Proof.
  induction files as [|filepath rest IH]; intros acc Hr.
  - exists acc. reflexivity.
  - rewrite parse_loop_cons.
    destruct (Py.truthy (read filepath)); [|apply IH; exact Hr].
    destruct (extract_from_github.parse_prompt_file (read filepath) filepath)
      as [template|]; [|apply IH; exact Hr].
    destruct (extract_from_github.is_duplicate existing template);
      [apply IH; exact Hr|].
    rewrite (get_next_id_ok Hr). apply IH.
    rewrite app_assoc. apply Forall_app. split; [exact Hr|].
    constructor; [|constructor].
    unfold Ids.readable. rewrite id_set_id, suffix_of_formatted.
    + discriminate.
    + pose proof (max_suffix_nonneg (existing ++ acc)). lia.
Qed.

(** The duplicate scan looks at the existing items only. *)
Lemma is_duplicate_spec (existing : list Template.t) (t : Template.t) :
  extract_from_github.is_duplicate existing t = true
  <-> exists e,
        In e existing
        /\ Py.slice_to 100 (Template.get_prompt e)
           = Py.slice_to 100 (Template.get_prompt t).
Proof.
  unfold extract_from_github.is_duplicate. rewrite existsb_exists.
  split; intros (e & He & H); exists e; split; try exact He;
    apply str_eqb_eq; exact H.
Qed.

(** The prompts of the accepted records are those of the candidates that
    duplicate no existing item, in order. *)
Lemma parse_loop_prompts (read : Py.str -> Py.str)
    (existing : list Template.t) (files : list Py.str) :
  forall acc out,
    extract_from_github.parse_loop read existing acc files = Ok out ->
    map Template.get_prompt out
    = map Template.get_prompt acc
      ++ map Template.get_prompt
           (filter
              (fun t => negb (extract_from_github.is_duplicate existing t))
              (extract_from_github.candidates read files)).
Proof.
  induction files as [|filepath rest IH]; intros acc out H.
  - simpl in H. injection H as <-. simpl. rewrite app_nil_r. reflexivity.
  - rewrite parse_loop_cons in H.
    unfold extract_from_github.candidates. cbn [flat_map].
    fold (extract_from_github.candidates read rest).
    destruct (Py.truthy (read filepath)); [|apply IH; exact H].
    destruct (extract_from_github.parse_prompt_file (read filepath) filepath)
      as [template|]; [|apply IH; exact H].
    cbn [app filter].
    destruct (extract_from_github.is_duplicate existing template);
      cbn [negb]; [apply IH; exact H|].
    destruct (extract_from_github.get_next_id (existing ++ acc))
      as [new_id|e]; [|discriminate].
    apply IH in H. rewrite H, map_app. cbn [map].
    rewrite get_prompt_set_id, <- app_assoc. reflexivity.
Qed.

(** [main] writes exactly when the run accepted a record. *)
Lemma main_accepted (repo_dir : option tree) (read : Py.str -> Py.str)
    (data : Catalog) (today now : Py.str) :
  extract_from_github.main repo_dir read data today now
  = match extract_from_github.accepted repo_dir read data with
    | Raise e => Raise e
    | Ok [] => Ok extract_from_github.NoWrite
    | Ok new_templates =>
        Ok (extract_from_github.Write
              {| meta_version := today;
                 meta_updated_at := now;
                 items := items data ++ new_templates |})
    end.
Proof.
  unfold extract_from_github.main, extract_from_github.accepted.
  destruct repo_dir as [repo|]; [|reflexivity].
  destruct (extract_from_github.find_template_files repo); reflexivity.
Qed.

End WithUnicode.

End MergeFacts.

(** ** The prompt parser *)

Module ParserFacts.

Import PyFacts.

Section WithUnicode.
Context {U : Py.UnicodeData}.

Definition found (o : option (ParserRules.place * Py.str)) : Py.str :=
  match o with
  | Some l => snd l
  | None => []
  end.

(** The first loop of [extract_from_github.parse_prompt_file] finds the
    first line that rule 1 accepts. *)
Lemma code_block_loop_find (lines : list Py.str) :
  forall inside,
    extract_from_github.code_block_loop inside lines
    = found (find ParserRules.fenced_line
               (ParserRules.annotate inside lines)).
Proof.
  induction lines as [|line rest IH]; intros inside; [reflexivity|].
  cbn [extract_from_github.code_block_loop ParserRules.annotate].
  cbv zeta.
  destruct (Py.startswith fence (Py.strip line)).
  - cbn [find]. unfold ParserRules.fenced_line at 1. cbn. apply IH.
  - cbn [find]. unfold ParserRules.fenced_line at 1.
    unfold ParserRules.non_blank.
    destruct inside; cbn [fst snd ParserRules.is_inside andb].
    + destruct (Py.truthy (Py.strip line)); [reflexivity | apply IH].
    + apply IH.
Qed.

(** Its second loop finds the first line that rule 2 accepts at 3/5. *)
Lemma english_loop_find (lines : list Py.str) :
  forall inside,
    extract_from_github.english_loop lines
    = found (find (ParserRules.latin_at 3 5)
               (ParserRules.annotate inside lines)).
Proof.
  induction lines as [|line rest IH]; intros inside; [reflexivity|].
  cbn [extract_from_github.english_loop ParserRules.annotate].
  cbv zeta.
  destruct (Py.startswith fence (Py.strip line)); cbn [find];
    unfold ParserRules.latin_at at 1; cbn [snd];
    unfold ParserRules.latin_line, ParserRules.non_blank,
      ParserRules.is_heading, ParserRules.longer_than;
    destruct (Py.truthy (Py.strip line)
              && negb (Py.startswith hash_sign (Py.strip line))
              && (20 <? List.length (Py.strip line))
              && english_ratio_exceeds 3 5 (Py.strip line));
    try reflexivity; apply IH.
Qed.

(** The first loop of [extract_banana_templates._extract_prompt] finds the
    first line accepted by rule 1 inside a block or by rule 2 outside. *)
Lemma first_loop_find (lines : list Py.str) :
  forall inside,
    extract_banana_templates.first_loop inside lines
    = found (find (ParserRules.single_pass_line 7 10)
               (ParserRules.annotate inside lines)).
Proof.
  induction lines as [|line rest IH]; intros inside; [reflexivity|].
  cbn [extract_banana_templates.first_loop ParserRules.annotate].
  cbv zeta.
  destruct (Py.startswith fence (Py.strip line)).
  - cbn [find]. unfold ParserRules.single_pass_line at 1.
    cbn. apply IH.
  - cbn [find]. unfold ParserRules.single_pass_line at 1.
    unfold ParserRules.fenced_line, ParserRules.latin_at,
      ParserRules.latin_line,
      ParserRules.non_blank, ParserRules.is_heading,
      ParserRules.longer_than, extract_banana_templates._is_english_prompt.
    destruct inside; cbn [fst snd ParserRules.is_inside
                            ParserRules.is_outside negb andb orb].
    + destruct (Py.truthy (Py.strip line)); cbn [andb orb found snd];
        [reflexivity | apply IH].
    + destruct (Py.truthy (Py.strip line)
                && negb (Py.startswith hash_sign (Py.strip line))
                && (20 <? List.length (Py.strip line)));
        cbn [andb orb].
      * destruct (english_ratio_exceeds 7 10 (Py.strip line));
          [reflexivity | apply IH].
      * apply IH.
Qed.

(** Its second loop finds the first line that rule 3 accepts. *)
Lemma second_loop_find (lines : list Py.str) :
  forall inside,
    extract_banana_templates.second_loop lines
    = found (find ParserRules.fallback_at
               (ParserRules.annotate inside lines)).
Proof.
  induction lines as [|line rest IH]; intros inside; [reflexivity|].
  cbn [extract_banana_templates.second_loop ParserRules.annotate].
  cbv zeta.
  destruct (Py.startswith fence (Py.strip line)); cbn [find];
    unfold ParserRules.fallback_at at 1; cbn [snd];
    unfold ParserRules.fallback_line, ParserRules.non_blank,
      ParserRules.is_heading, ParserRules.longer_than;
    destruct (Py.truthy (Py.strip line)
              && negb (Py.startswith hash_sign (Py.strip line))
              && (10 <? List.length (Py.strip line)));
    try reflexivity; apply IH.
Qed.

(** A line that a rule accepts is not blank. *)
Lemma find_non_blank (P : ParserRules.place * Py.str -> bool)
    (ls : list (ParserRules.place * Py.str)) :
  (forall l, P l = true -> Py.truthy (snd l) = true) ->
  forall l, find P ls = Some l -> Py.truthy (snd l) = true.
Proof.
  intros HP l H. apply find_some in H. apply HP. apply H.
Qed.

Lemma fenced_non_blank (l : ParserRules.place * Py.str) :
  ParserRules.fenced_line l = true -> Py.truthy (snd l) = true.
Proof.
  unfold ParserRules.fenced_line, ParserRules.non_blank. intros H.
  apply andb_prop in H. apply H.
Qed.

Lemma latin_non_blank (num den : nat) (s : Py.str) :
  ParserRules.latin_line num den s = true -> Py.truthy s = true.
Proof.
  unfold ParserRules.latin_line, ParserRules.non_blank. intros H.
  repeat (apply andb_prop in H; destruct H as [H _]). exact H.
Qed.

Lemma fallback_non_blank (s : Py.str) :
  ParserRules.fallback_line s = true -> Py.truthy s = true.
Proof.
  unfold ParserRules.fallback_line, ParserRules.non_blank. intros H.
  repeat (apply andb_prop in H; destruct H as [H _]). exact H.
Qed.

Lemma single_pass_non_blank (num den : nat)
    (l : ParserRules.place * Py.str) :
  ParserRules.single_pass_line num den l = true ->
  Py.truthy (snd l) = true.
Proof.
  unfold ParserRules.single_pass_line. intros H.
  apply orb_prop in H. destruct H as [H|H].
  - apply fenced_non_blank. exact H.
  - apply andb_prop in H. destruct H as [_ H].
    eapply latin_non_blank. exact H.
Qed.

(** A line that rule 2 accepts is accepted by rule 3. *)
Lemma latin_is_fallback (num den : nat) (s : Py.str) :
  ParserRules.latin_line num den s = true ->
  ParserRules.fallback_line s = true.
Proof.
  unfold ParserRules.latin_line, ParserRules.fallback_line,
    ParserRules.longer_than.
  intros H. apply andb_prop in H. destruct H as [H _].
  apply andb_prop in H. destruct H as [H Hlen].
  rewrite H. apply Nat.ltb_lt in Hlen. apply Nat.ltb_lt. lia.
Qed.

Lemma found_first_line (P : ParserRules.place * Py.str -> bool)
    (content : Py.str) :
  found (find P (ParserRules.lines_of content))
  = match ParserRules.first_line P content with
    | Some p => p
    | None => []
    end.
Proof.
  unfold ParserRules.first_line.
  destruct (find P (ParserRules.lines_of content)); reflexivity.
Qed.

Lemma first_line_non_blank (P : ParserRules.place * Py.str -> bool)
    (content p : Py.str) :
  (forall l, P l = true -> Py.truthy (snd l) = true) ->
  ParserRules.first_line P content = Some p -> Py.truthy p = true.
Proof.
  unfold ParserRules.first_line. intros HP H.
  destruct (find P (ParserRules.lines_of content)) as [l|] eqn:E;
    [|discriminate].
  injection H as <-. eapply find_non_blank; eassumption.
Qed.

(** [extract_from_github]: rule 1, then rule 2 at 3/5, then nothing. *)
Lemma extracted_prompt_rules (content : Py.str) :
  extract_from_github.extracted_prompt content
  = match ParserRules.rule1 content with
    | Some p => p
    | None =>
        match ParserRules.rule2 3 5 content with
        | Some p => p
        | None => []
        end
    end.
Proof.
  unfold extract_from_github.extracted_prompt. cbv zeta.
  rewrite (code_block_loop_find _ false), (english_loop_find _ false).
  fold (ParserRules.lines_of content). rewrite !found_first_line.
  fold (ParserRules.rule1 content). fold (ParserRules.rule2 3 5 content).
  destruct (ParserRules.rule1 content) as [p|] eqn:E1; [|reflexivity].
  rewrite (first_line_non_blank _ _ fenced_non_blank E1). reflexivity.
Qed.

(** [extract_banana_templates]: the single pass at 7/10, then rule 3, then
    the placeholder. *)
Lemma _extract_prompt_rules (content : Py.str) :
  extract_banana_templates._extract_prompt content
  = match ParserRules.first_line (ParserRules.single_pass_line 7 10)
            content with
    | Some p => p
    | None =>
        match ParserRules.rule3 content with
        | Some p => p
        | None => extract_banana_templates.placeholder_prompt
        end
    end.
Proof.
  unfold extract_banana_templates._extract_prompt. cbv zeta.
  rewrite (first_loop_find _ false), (second_loop_find _ false).
  fold (ParserRules.lines_of content). rewrite !found_first_line.
  fold (ParserRules.rule3 content).
  destruct (ParserRules.first_line (ParserRules.single_pass_line 7 10)
              content) as [p|] eqn:E1.
  - pose proof (first_line_non_blank _ _ (@single_pass_non_blank 7 10) E1)
      as Hp.
    rewrite Hp. cbn [negb]. rewrite Hp. reflexivity.
  - cbn [Py.truthy negb].
    destruct (ParserRules.rule3 content) as [p|] eqn:E3; [|reflexivity].
    assert (H : Py.truthy p = true).
    { eapply first_line_non_blank; [|exact E3].
      intros l Hl. apply fallback_non_blank. exact Hl. }
    rewrite H. reflexivity.
Qed.

(** When rules 1 and 2 find nothing, so does the single pass. *)
Lemma single_pass_none (num den : nat) (content : Py.str) :
  ParserRules.rule1 content = None ->
  ParserRules.rule2 num den content = None ->
  ParserRules.first_line (ParserRules.single_pass_line num den) content
  = None.
Proof.
  unfold ParserRules.rule1, ParserRules.rule2, ParserRules.first_line.
  intros H1 H2.
  destruct (find ParserRules.fenced_line (ParserRules.lines_of content))
    eqn:E1; [discriminate|].
  destruct (find (ParserRules.latin_at num den)
              (ParserRules.lines_of content)) eqn:E2; [discriminate|].
  destruct (find (ParserRules.single_pass_line num den)
              (ParserRules.lines_of content)) as [l|] eqn:E; [|reflexivity].
  exfalso. apply find_some in E. destruct E as [Hin Hl].
  unfold ParserRules.single_pass_line in Hl. apply orb_prop in Hl.
  destruct Hl as [Hl|Hl].
  - rewrite (find_none _ _ E1 l Hin) in Hl. discriminate.
  - apply andb_prop in Hl. destruct Hl as [_ Hl].
    rewrite (find_none _ _ E2 l Hin) in Hl. discriminate.
Qed.

(** When rule 3 finds nothing, neither does rule 2. *)
Lemma rule3_none_rule2 (num den : nat) (content : Py.str) :
  ParserRules.rule3 content = None ->
  ParserRules.rule2 num den content = None.
Proof.
  unfold ParserRules.rule3, ParserRules.rule2, ParserRules.first_line.
  intros H3.
  destruct (find ParserRules.fallback_at (ParserRules.lines_of content))
    eqn:E3; [discriminate|].
  destruct (find (ParserRules.latin_at num den)
              (ParserRules.lines_of content)) as [l|] eqn:E; [|reflexivity].
  exfalso. apply find_some in E. destruct E as [Hin Hl].
  apply latin_is_fallback in Hl.
  pose proof (find_none _ _ E3 l Hin) as Hn.
  unfold ParserRules.fallback_at in Hn. congruence.
Qed.

(** The record of [extract_from_github.parse_prompt_file]. *)
Lemma parse_prompt_file_some (content filepath : Py.str) :
  Py.truthy content = true ->
  Py.truthy (extract_from_github.extracted_prompt content) = true ->
  exists t,
    extract_from_github.parse_prompt_file content filepath = Some t
    /\ Template.id t = None
    /\ Template.prompt t
       = Some (Py.slice_to 500
                 (extract_from_github.extracted_prompt content))
    /\ Template.title t
       = Py.u "Nano Banana·"
         ++ extract_from_github.title_of
              (extract_from_github.filename_of filepath)
    /\ Template.ratio t
       = snd (extract_from_github.classify_template
                (extract_from_github.filename_of filepath) content).
Proof.
  intros Hc Hp. unfold extract_from_github.parse_prompt_file.
  rewrite Hc, Hp. cbn [negb]. cbv zeta.
  destruct (extract_from_github.classify_template
              (extract_from_github.filename_of filepath) content)
    as [[[c m] i] r].
  eexists. split; [reflexivity|]. repeat split; reflexivity.
Qed.

Lemma parse_prompt_file_none (content filepath : Py.str) :
  Py.truthy content = false
  \/ Py.truthy (extract_from_github.extracted_prompt content) = false ->
  extract_from_github.parse_prompt_file content filepath = None.
Proof.
  unfold extract_from_github.parse_prompt_file.
  intros [H|H]; [rewrite H; reflexivity|].
  destruct (Py.truthy content); [|reflexivity].
  rewrite H. reflexivity.
Qed.

(** The record of [extract_banana_templates.parse_prompt_file]. *)
Lemma banana_record (md5_head : Py.str -> Z) (content filepath : Py.str) :
  let t := extract_banana_templates.parse_prompt_file md5_head content
             filepath in
  Template.prompt t
  = Some (Py.slice_to 500 (extract_banana_templates._extract_prompt content))
  /\ Template.title t
     = Py.u "Nano Banana·" ++ extract_banana_templates.title_of filepath
  /\ Template.ratio t
     = snd (extract_banana_templates._classify_template
              (extract_banana_templates.category_of filepath)
              (extract_banana_templates.title_of filepath) content)
  /\ Template.id t
     = Some (Py.u "nbp-" ++ Py.format_04d (md5_head filepath mod 10000)).
Proof.
  cbv zeta. unfold extract_banana_templates.parse_prompt_file. cbv zeta.
  destruct (extract_banana_templates._classify_template
              (extract_banana_templates.category_of filepath)
              (extract_banana_templates.title_of filepath) content)
    as [[[c m] i] r].
  repeat split; reflexivity.
Qed.

End WithUnicode.

End ParserFacts.

(** ** The classifier *)

Module ClassifierFacts.

Lemma any_in_app (l1 l2 : list Py.str) (s : Py.str) :
  Py.any_in (l1 ++ l2) s = Py.any_in l1 s || Py.any_in l2 s.
Proof. unfold Py.any_in. apply existsb_app. Qed.

Lemma any_in_cons (kw : Py.str) (l : list Py.str) (s : Py.str) :
  Py.any_in (kw :: l) s = Py.contains kw s || Py.any_in l s.
Proof. reflexivity. Qed.

Lemma in_aspect_ratios (b1 b2 b3 : bool) :
  In (if b1 then Py.u "9:16"
      else if b2 then Py.u "16:9"
      else if b3 then Py.u "3:4" else Py.u "1:1") aspect_ratios.
Proof.
  unfold aspect_ratios. destruct b1, b2, b3; cbn [In]; auto 6.
Qed.

End ClassifierFacts.

(** ** The document locator *)

Module LocatorFacts.

Section WithUnicode.
Context {U : Py.UnicodeData}.

(** The walk of [extract_from_github] lists the paths of the entries that
    its filter keeps, and nothing else. *)
Lemma walk_entries :
  forall t root path,
    In path (extract_from_github.walk root t)
    <-> exists file,
          Locator.entry root t file path
          /\ extract_from_github.is_template_file file = true.
Proof.
  intros t.
  induction t using tree_forest_ind
    with (P0 := fun f =>
                  forall root path,
                    In path (extract_from_github.walk_dirs root f)
                    <-> exists file,
                          Locator.entry_in root f file path
                          /\ extract_from_github.is_template_file file
                             = true).
  - intros root path. cbn [extract_from_github.walk].
    rewrite in_app_iff, in_map_iff. split.
    + intros [(file & <- & Hf) | Hsub].
      * apply filter_In in Hf. destruct Hf as [Hin Hkeep].
        exists file. split; [constructor; exact Hin | exact Hkeep].
      * apply IHt in Hsub. destruct Hsub as (file & He & Hkeep).
        exists file. split; [apply Locator.entry_sub; exact He | exact Hkeep].
    + intros (file & He & Hkeep). inversion He; subst.
      * left. exists file. split; [reflexivity|].
        apply filter_In. split; assumption.
      * right. apply IHt. exists file. split; assumption.
  - intros root path. cbn. split; [contradiction|].
    intros (file & He & _). inversion He.
  - intros root path. cbn [extract_from_github.walk_dirs].
    rewrite in_app_iff. split.
    + intros [H|H].
      * apply IHt in H. destruct H as (file & He & Hkeep).
        exists file. split; [apply Locator.entry_first; exact He|exact Hkeep].
      * apply IHt0 in H. destruct H as (file & He & Hkeep).
        exists file. split; [apply Locator.entry_later; exact He|exact Hkeep].
    + intros (file & He & Hkeep). inversion He; subst.
      * left. apply IHt. exists file. split; assumption.
      * right. apply IHt0. exists file. split; assumption.
Qed.

(** The filter of [extract_from_github]: the extension [.md], and a name
    that is not the readme in any mix of upper and lower case. *)
Lemma is_template_file_spec (file : Py.str) :
  extract_from_github.is_template_file file = true
  <-> Py.endswith (Py.u ".md") file = true
      /\ Py.lower file <> Py.u "readme.md".
Proof.
  unfold extract_from_github.is_template_file.
  rewrite andb_true_iff, negb_true_iff, PyFacts.str_eqb_neq. reflexivity.
Qed.

End WithUnicode.

End LocatorFacts.

(** ** Runs of the merge *)

Module RunFacts.

Section WithUnicode.
Context {U : Py.UnicodeData}.

Lemma is_duplicate_app (l1 l2 : list Template.t) (t : Template.t) :
  extract_from_github.is_duplicate (l1 ++ l2) t
  = extract_from_github.is_duplicate l1 t
    || extract_from_github.is_duplicate l2 t.
Proof. unfold extract_from_github.is_duplicate. apply existsb_app. Qed.

(** When every candidate duplicates an existing item, nothing is
    accepted. *)
Lemma parse_loop_all_duplicates (read : Py.str -> Py.str)
    (existing : list Template.t) (files : list Py.str) :
  (forall t,
     In t (extract_from_github.candidates read files) ->
     extract_from_github.is_duplicate existing t = true) ->
  forall acc,
    extract_from_github.parse_loop read existing acc files = Ok acc.
Proof.
  induction files as [|filepath rest IH]; intros Hdup acc; [reflexivity|].
  rewrite MergeFacts.parse_loop_cons.
  unfold extract_from_github.candidates in Hdup. cbn [flat_map] in Hdup.
  fold (extract_from_github.candidates read rest) in Hdup.
  destruct (Py.truthy (read filepath)); [|apply IH; exact Hdup].
  destruct (extract_from_github.parse_prompt_file (read filepath) filepath)
    as [template|]; [|apply IH; exact Hdup].
  rewrite (Hdup template) by (left; reflexivity).
  apply IH. intros t Ht. apply Hdup. right. exact Ht.
Qed.

(** A candidate of a run that went through duplicates an item of the
    catalog or an accepted record. *)
Lemma candidate_covered (read : Py.str -> Py.str)
    (existing : list Template.t) (files : list Py.str)
    (news : list Template.t) :
  extract_from_github.parse_loop read existing [] files = Ok news ->
  forall t,
    In t (extract_from_github.candidates read files) ->
    extract_from_github.is_duplicate (existing ++ news) t = true.
Proof.
  intros Hrun t Ht. rewrite is_duplicate_app.
  destruct (extract_from_github.is_duplicate existing t) eqn:E;
    [reflexivity|].
  cbn [orb]. apply MergeFacts.parse_loop_prompts in Hrun.
  cbn [map app] in Hrun.
  assert (Hin : In (Template.get_prompt t) (map Template.get_prompt news)).
  { rewrite Hrun. apply in_map. apply filter_In. split; [exact Ht|].
    rewrite E. reflexivity. }
  apply in_map_iff in Hin. destruct Hin as (item & Hp & Hitem).
  apply MergeFacts.is_duplicate_spec. exists item.
  split; [exact Hitem | rewrite Hp; reflexivity].
Qed.

End WithUnicode.

End RunFacts.

(** ** Identifiers of four digits *)

Module WidthFacts.

Lemma digits_from_length (k : nat) :
  forall fuel n acc,
    (n < 10 ^ N.of_nat (S k))%N ->
    List.length (Py.digits_from fuel n acc) <= List.length acc + S k.
Proof.
  induction k as [|k IH]; intros fuel n acc Hn.
  - destruct fuel as [|f]; [simpl; lia|].
    rewrite PyFacts.digits_from_S.
    assert (Hq : (n / 10 = 0)%N) by (apply N.div_small; exact Hn).
    rewrite Hq. cbn. lia.
  - destruct fuel as [|f]; [simpl; lia|].
    rewrite PyFacts.digits_from_S.
    destruct (n / 10 =? 0)%N; [cbn; lia|].
    assert (Hq : (n / 10 < 10 ^ N.of_nat (S k))%N).
    { apply N.Div0.div_lt_upper_bound.
      rewrite (Nat2N.inj_succ (S k)), N.pow_succ_r' in Hn. exact Hn. }
    specialize (IH f (n / 10)%N ((48 + n mod 10)%N :: acc) Hq).
    cbn [List.length] in IH. lia.
Qed.

(** [04d] writes a number below 10000 with exactly four digits. *)
Lemma format_04d_length (n : Z) :
  (0 <= n < 10000)%Z -> List.length (Py.format_04d n) = 4.
Proof.
  intros Hn. unfold Py.format_04d.
  destruct (n <? 0)%Z eqn:E; [apply Z.ltb_lt in E; lia|].
  unfold Py.zfill. rewrite length_app, repeat_length.
  assert (Hlen : List.length (Py.decimal (Z.to_N n)) <= 4).
  { unfold Py.decimal.
    apply (@digits_from_length 3 _ (Z.to_N n) []).
    change (10 ^ N.of_nat 4)%N with 10000%N. lia. }
  lia.
Qed.

End WidthFacts.

(** ** The walk of [extract_banana_templates] *)

Module BananaFacts.

Lemma banana_walk_entries :
  forall t root path,
    In path (extract_banana_templates.walk root t)
    <-> exists file,
          Locator.entry root t file path
          /\ extract_banana_templates.is_template_file file = true.
Proof.
  intros t.
  induction t using tree_forest_ind
    with (P0 := fun f =>
                  forall root path,
                    In path (extract_banana_templates.walk_dirs root f)
                    <-> exists file,
                          Locator.entry_in root f file path
                          /\ extract_banana_templates.is_template_file file
                             = true).
  - intros root path. cbn [extract_banana_templates.walk].
    rewrite in_app_iff, in_map_iff. split.
    + intros [(file & <- & Hf) | Hsub].
      * apply filter_In in Hf. destruct Hf as [Hin Hkeep].
        exists file. split; [constructor; exact Hin | exact Hkeep].
      * apply IHt in Hsub. destruct Hsub as (file & He & Hkeep).
        exists file. split; [apply Locator.entry_sub; exact He | exact Hkeep].
    + intros (file & He & Hkeep). inversion He; subst.
      * left. exists file. split; [reflexivity|].
        apply filter_In. split; assumption.
      * right. apply IHt. exists file. split; assumption.
  - intros root path. cbn. split; [contradiction|].
    intros (file & He & _). inversion He.
  - intros root path. cbn [extract_banana_templates.walk_dirs].
    rewrite in_app_iff. split.
    + intros [H|H].
      * apply IHt in H. destruct H as (file & He & Hkeep).
        exists file. split; [apply Locator.entry_first; exact He|exact Hkeep].
      * apply IHt0 in H. destruct H as (file & He & Hkeep).
        exists file. split; [apply Locator.entry_later; exact He|exact Hkeep].
    + intros (file & He & Hkeep). inversion He; subst.
      * left. apply IHt. exists file. split; assumption.
      * right. apply IHt0. exists file. split; assumption.
Qed.

Lemma banana_is_template_file_spec (file : Py.str) :
  extract_banana_templates.is_template_file file = true
  <-> Py.endswith (Py.u ".md") file = true /\ file <> Py.u "README.md".
Proof.
  unfold extract_banana_templates.is_template_file.
  rewrite andb_true_iff, negb_true_iff, PyFacts.str_eqb_neq. reflexivity.
Qed.

End BananaFacts.

(** ** Sequential numbering *)

Module NumberingFacts.

Section WithUnicode.
Context {U : Py.UnicodeData}.

(** An identifier rendered with any padding width reads back as its
    number. *)
Lemma suffix_of_rendered (width : nat) (n : Z) :
  (0 <= n)%Z -> Ids.suffix_of (Numbering.rendered width n) = Some n.
Proof.
  intros Hn. unfold Ids.suffix_of, Numbering.rendered.
  assert (Hd : PyFacts.all_digits
                 (Py.zfill width (Py.decimal (Z.to_N n))))
    by apply PyFacts.zfill_all_digits, PyFacts.decimal_all_digits.
  rewrite (IntFacts.replace_prefix_digits Hd).
  rewrite IntFacts.int_digits;
    [|exact Hd | apply PyFacts.zfill_nonempty, PyFacts.decimal_nonempty].
  rewrite PyFacts.zfill_value, PyFacts.decimal_value. f_equal. lia.
Qed.

(** Two records cannot be numbered in sequence both in one order and in
    the other: the one accepted first would have to carry two numbers. *)
Lemma sequential_not_both_orders (width : nat) (known : list Template.t)
    (a b : Template.t) :
  Numbering.sequential width known [a; b] ->
  Numbering.sequential width known [b; a] ->
  False.
Proof.
  intros (Ha & _) (Hb & Ha' & _).
  pose proof (IdFacts.max_suffix_nonneg known) as Hk.
  assert (Hnum : Ids.id_num b = Some (Ids.max_suffix known + 1)%Z).
  { unfold Ids.id_num. rewrite Hb. apply suffix_of_rendered. lia. }
  assert (Hmax : Ids.max_suffix (known ++ [b])
                 = (Ids.max_suffix known + 1)%Z).
  { unfold Ids.max_suffix. rewrite IdFacts.suffixes_app, fold_left_app.
    cbn [Ids.suffixes]. rewrite Hnum. cbn [fold_left].
    fold (Ids.max_suffix known). lia. }
  rewrite Hmax, Ha in Ha'.
  assert (E : Ids.suffix_of
                (Numbering.rendered width (Ids.max_suffix known + 1))
              = Ids.suffix_of
                  (Numbering.rendered width
                     (Ids.max_suffix known + 1 + 1))) by congruence.
  rewrite !suffix_of_rendered in E by lia.
  injection E as E. lia.
Qed.

End WithUnicode.

End NumberingFacts.

(** ** The run of [extract_banana_templates] *)

Module BananaRunFacts.

Section WithUnicode.
Context {U : Py.UnicodeData}.
Variable md5_head : Py.str -> Z.
Variable head_status : Py.str -> option Z.
Variable get_file_via_mirror :
  extract_banana_templates.value -> Py.str -> Py.str.

(** The loop after a clone keeps the files with more than ten characters
    of text and a path that can be encoded. *)
Lemma collect_map_filter (read : Py.str -> Py.str) (files : list Py.str) :
  extract_banana_templates.collect md5_head read files
  = map (fun filepath =>
           extract_banana_templates.parse_prompt_file md5_head
             (read filepath) filepath)
      (filter (fun filepath =>
                 Py.truthy (read filepath)
                 && (10 <? List.length (read filepath))
                 && extract_banana_templates.utf8_encodable filepath)
         files).
Proof.
  induction files as [|filepath rest IH]; [reflexivity|].
  cbn [extract_banana_templates.collect filter]. cbv zeta.
  destruct (Py.truthy (read filepath)
            && (10 <? List.length (read filepath))); cbn [andb].
  - destruct (extract_banana_templates.utf8_encodable filepath);
      cbn [map]; rewrite IH; reflexivity.
  - exact IH.
Qed.

(** The probe of the mirrors returns nothing, or a mirror followed by the
    whole list of files as one element. *)
Lemma probe_cases (mirror_list : list Py.str) :
  (existsb
     (fun mirror =>
        existsb (extract_banana_templates.answers head_status mirror)
          (firstn 2 extract_banana_templates.possible_files))
     mirror_list = false
   /\ extract_banana_templates.probe head_status mirror_list = [])
  \/ (existsb
        (fun mirror =>
           existsb (extract_banana_templates.answers head_status mirror)
             (firstn 2 extract_banana_templates.possible_files))
        mirror_list = true
      /\ exists mirror,
           extract_banana_templates.probe head_status mirror_list
           = [extract_banana_templates.Str mirror;
              extract_banana_templates.StrList
                extract_banana_templates.possible_files]).
Proof.
  induction mirror_list as [|mirror rest IH].
  - left. split; reflexivity.
  - cbn [existsb extract_banana_templates.probe].
    destruct (existsb (extract_banana_templates.answers head_status mirror)
                (firstn 2 extract_banana_templates.possible_files)).
    + right. split; [reflexivity|]. exists mirror. reflexivity.
    + cbn [orb]. exact IH.
Qed.

End WithUnicode.

End BananaRunFacts.

(** ** Stripped lines *)

Module ShapeFacts.

Lemma lstrip_split (s : Py.str) :
  exists pre,
    s = pre ++ Py.lstrip s
    /\ Forall (fun c => Py.isspace c = true) pre.
Proof.
  induction s as [|c r (pre & E & Hpre)].
  - exists []. split; [reflexivity | constructor].
  - simpl. destruct (Py.isspace c) eqn:Ec.
    + exists (c :: pre). split; [simpl; f_equal; exact E|].
      constructor; assumption.
    + exists []. split; [reflexivity | constructor].
Qed.

Lemma lstrip_head (s : Py.str) (c : N) (r : Py.str) :
  Py.lstrip s = c :: r -> Py.isspace c = false.
Proof.
  induction s as [|d s IH]; [discriminate|].
  simpl. destruct (Py.isspace d) eqn:Ed; [exact IH|].
  intros H. injection H as <- _. exact Ed.
Qed.

(** [s.strip()] is [s] without a run of blanks at each end. *)
Lemma strip_split (s : Py.str) :
  exists pre post,
    s = pre ++ Py.strip s ++ post
    /\ Forall (fun c => Py.isspace c = true) pre
    /\ Forall (fun c => Py.isspace c = true) post.
Proof.
  destruct (lstrip_split s) as (pre & Es & Hpre).
  destruct (lstrip_split (rev (Py.lstrip s))) as (q & Eq & Hq).
  exists pre, (rev q). split; [|split].
  - unfold Py.strip, Py.rstrip.
    rewrite <- rev_app_distr, <- Eq, rev_involutive. exact Es.
  - exact Hpre.
  - apply Forall_forall. intros c Hc. apply in_rev in Hc.
    rewrite Forall_forall in Hq. apply Hq. exact Hc.
Qed.

Lemma strip_incl (s : Py.str) (c : N) : In c (Py.strip s) -> In c s.
Proof.
  intros H. destruct (strip_split s) as (pre & post & E & _).
  rewrite E. apply in_or_app. right. apply in_or_app. left. exact H.
Qed.

Lemma strip_last (s : Py.str) (c : N) :
  Py.strip s <> [] -> Py.isspace (last (Py.strip s) c) = false.
Proof.
  unfold Py.strip, Py.rstrip. intros Hne.
  destruct (Py.lstrip (rev (Py.lstrip s))) as [|d w] eqn:E;
    [simpl in Hne; congruence|].
  apply lstrip_head in E. simpl. rewrite last_last. exact E.
Qed.

Lemma strip_head (s : Py.str) (c : N) (r : Py.str) :
  Py.strip s = c :: r -> Py.isspace c = false.
Proof.
  unfold Py.strip, Py.rstrip. intros H.
  destruct (Py.lstrip s) as [|d t] eqn:Et; [discriminate|].
  pose proof (lstrip_head _ Et) as Hd.
  destruct (lstrip_split (rev (d :: t))) as (q & Eq & Hq).
  assert (Ew : d :: t = rev (Py.lstrip (rev (d :: t))) ++ rev q).
  { rewrite <- rev_app_distr, <- Eq, rev_involutive. reflexivity. }
  rewrite H in Ew. simpl in Ew. injection Ew as -> _. exact Hd.
Qed.

(** No line of [s.split(sep)] holds the separator. *)
Lemma split_no_sep (sep : N) (s : Py.str) :
  Forall (fun line => ~ In sep line) (Py.split sep s).
Proof.
  induction s as [|c r IH]; simpl.
  - constructor; [intros [] | constructor].
  - destruct (c =? sep)%N eqn:E.
    + constructor; [intros [] | exact IH].
    + apply N.eqb_neq in E.
      destruct (Py.split sep r) as [|h t].
      * constructor; [|constructor]. intros [H|[]]. congruence.
      * inversion IH as [|? ? Hh Ht]; subst.
        constructor; [|exact Ht].
        intros [H|H]; [congruence | exact (Hh H)].
Qed.

Lemma annotate_lines (lines : list Py.str) :
  forall inside l,
    In l (ParserRules.annotate inside lines) ->
    exists line, In line lines /\ snd l = Py.strip line.
Proof.
  induction lines as [|line rest IH]; intros inside l Hl; [contradiction|].
  cbn [ParserRules.annotate] in Hl. cbv zeta in Hl.
  destruct (Py.startswith fence (Py.strip line)).
  - destruct Hl as [<- | Hl].
    + exists line. split; [left; reflexivity | reflexivity].
    + apply IH in Hl. destruct Hl as (x & Hx & E).
      exists x. split; [right; exact Hx | exact E].
  - destruct Hl as [<- | Hl].
    + exists line. split; [left; reflexivity | reflexivity].
    + apply IH in Hl. destruct Hl as (x & Hx & E).
      exists x. split; [right; exact Hx | exact E].
Qed.

(** What a rule finds is a line of the document, stripped. *)
Lemma first_line_is_line (P : ParserRules.place * Py.str -> bool)
    (content p : Py.str) :
  ParserRules.first_line P content = Some p ->
  exists line, In line (Py.split 10 content) /\ p = Py.strip line.
Proof.
  unfold ParserRules.first_line. intros H.
  destruct (find P (ParserRules.lines_of content)) as [l|] eqn:E;
    [|discriminate].
  injection H as <-. apply find_some in E. destruct E as [Hin _].
  apply annotate_lines in Hin. destruct Hin as (line & Hline & E).
  exists line. split; [exact Hline | exact E].
Qed.

Lemma stripped_line_clean (n : nat) (content line : Py.str) :
  In line (Py.split 10 content) ->
  Py.strip line <> [] ->
  Shape.clean (S n) content (Py.slice_to (S n) (Py.strip line)).
Proof.
  intros Hline Hne. exists line.
  split; [exact Hline|]. split; [reflexivity|].
  split.
  { apply PyFacts.truthy_true. rewrite PyFacts.slice_to_truthy.
    apply PyFacts.truthy_true. exact Hne. }
  split; [apply PyFacts.slice_to_length|].
  split.
  { intros Hin. unfold Py.slice_to in Hin.
    assert (Hin' : In 10%N (Py.strip line)).
    { rewrite <- (firstn_skipn (S n) (Py.strip line)).
      apply in_or_app. left. exact Hin. }
    apply strip_incl in Hin'.
    pose proof (split_no_sep 10 content) as Hall.
    rewrite Forall_forall in Hall. exact (Hall line Hline Hin'). }
  split.
  { destruct (Py.strip line) as [|c r] eqn:E; [congruence|].
    simpl. eapply strip_head. exact E. }
  intros Hlen. rewrite PyFacts.slice_to_short by exact Hlen.
  apply strip_last. exact Hne.
Qed.

End ShapeFacts.

(** * The statements of the specification *)

(** C1 (as stated, refuted). The headings-only document matches none of
    the three rules, and [extract_banana_templates] returns the placeholder
    for it and builds a record that carries it. *)
Lemma C1_placeholder_returned :
  ParserRules.rule1 Examples.headings_doc = None
  /\ ParserRules.rule2 (U := plain_tables) 3 5 Examples.headings_doc = None
  /\ ParserRules.rule2 (U := plain_tables) 7 10 Examples.headings_doc = None
  /\ ParserRules.rule3 Examples.headings_doc = None
  /\ extract_banana_templates._extract_prompt (U := plain_tables)
       Examples.headings_doc
     = extract_banana_templates.placeholder_prompt
  /\ map Template.prompt
       (extract_banana_templates.collect (U := plain_tables)
          Examples.md5_zero
          (Examples.read_from
             [(Examples.fashion_path, Examples.headings_doc)])
          [Examples.fashion_path])
     = [Some extract_banana_templates.placeholder_prompt].
Proof.
  repeat split; vm_compute; reflexivity.
Qed.

(** C1 (amended). For every document in which no line qualifies by the
    fenced-block rule: if no line qualifies by the Latin-ratio rule at 0.6,
    [extract_from_github.parse_prompt_file] returns [None] and the loop of
    [main] goes on without a record for it; if no line qualifies by the
    unconditional rule, [extract_banana_templates._extract_prompt] returns
    the placeholder and the record carries the placeholder as its prompt. *)
Theorem C1_no_rule_matches {U : Py.UnicodeData} (md5_head : Py.str -> Z)
    (content filepath : Py.str) :
  ParserRules.rule1 content = None ->
  (ParserRules.rule2 3 5 content = None ->
   extract_from_github.parse_prompt_file content filepath = None
   /\ forall read existing acc rest,
        read filepath = content ->
        extract_from_github.parse_loop read existing acc (filepath :: rest)
        = extract_from_github.parse_loop read existing acc rest)
  /\ (ParserRules.rule3 content = None ->
      extract_banana_templates._extract_prompt content
      = extract_banana_templates.placeholder_prompt
      /\ Template.prompt
           (extract_banana_templates.parse_prompt_file md5_head content
              filepath)
         = Some extract_banana_templates.placeholder_prompt).
Proof.
  intros H1. split.
  - intros H2.
    assert (Hnone :
              extract_from_github.parse_prompt_file content filepath = None).
    { apply ParserFacts.parse_prompt_file_none. right.
      rewrite ParserFacts.extracted_prompt_rules, H1, H2. reflexivity. }
    split; [exact Hnone|].
    intros read existing acc rest Hread.
    rewrite MergeFacts.parse_loop_cons, Hread, Hnone.
    destruct (Py.truthy content); reflexivity.
  - intros H3.
    assert (Hp : extract_banana_templates._extract_prompt content
                 = extract_banana_templates.placeholder_prompt).
    { rewrite ParserFacts._extract_prompt_rules.
      rewrite (@ParserFacts.single_pass_none U 7 10 content H1
                 (@ParserFacts.rule3_none_rule2 U 7 10 content H3)).
      rewrite H3. reflexivity. }
    split; [exact Hp|].
    destruct (ParserFacts.banana_record md5_head content filepath)
      as [Hprompt _].
    rewrite Hprompt, Hp. reflexivity.
Qed.

(** C1 on the headings-only document. *)
Lemma C1_no_rule_matches_witness :
  extract_from_github.parse_prompt_file (U := plain_tables)
    Examples.headings_doc Examples.fashion_path = None
  /\ extract_banana_templates._extract_prompt (U := plain_tables)
       Examples.headings_doc
     = extract_banana_templates.placeholder_prompt.
Proof.
  destruct (@C1_no_rule_matches plain_tables Examples.md5_zero
              Examples.headings_doc Examples.fashion_path)
    as [Hgithub Hbanana].
  - vm_compute. reflexivity.
  - split.
    + apply Hgithub. vm_compute. reflexivity.
    + apply Hbanana. vm_compute. reflexivity.
Defined.

(** C2 (the code at the failing input). With an empty catalog and the
    same document under two names, the second copy is not recognised as a
    duplicate of the first: both are accepted, and [main] writes a catalog
    with two records whose prompts are equal. *)
Theorem C2_in_run_duplicate_accepted :
  exists first second,
    extract_from_github.accepted (U := plain_tables)
      (Some Examples.twin_repo) (Examples.read_from Examples.twin_texts)
      Examples.empty_catalog
    = Ok [first; second]
    /\ Template.id first = Some (Py.u "nbp-001")
    /\ Template.id second = Some (Py.u "nbp-002")
    /\ Py.slice_to 100 (Template.get_prompt first)
       = Py.slice_to 100 (Template.get_prompt second)
    /\ items
         (extract_from_github.persisted_after Examples.empty_catalog
            (extract_from_github.main (U := plain_tables)
               (Some Examples.twin_repo)
               (Examples.read_from Examples.twin_texts)
               Examples.empty_catalog Examples.today Examples.now))
       = [first; second].
Proof.
  eexists. eexists. split; [vm_compute; reflexivity|].
  repeat split; vm_compute; reflexivity.
Qed.

(** C3 (as stated, refuted). [extract_banana_templates] does not number
    its records in sequence.  Whatever the digest is, the identifier of the
    record of a file has four digits, where [get_next_id] writes three; and
    as it is taken from the path of the file, the records of two files
    carry the same identifiers whichever file comes first, so that for no
    padding width is each of them one above the largest identifier known
    when it is built in both orders. *)
Lemma C3_digest_ids_are_not_sequential :
  extract_from_github.get_next_id (U := plain_tables) [] = Ok (Py.u "nbp-001")
  /\ (forall md5_head : Py.str -> Z,
        exists ds,
          Template.id
            (extract_banana_templates.parse_prompt_file (U := plain_tables)
               md5_head Examples.fashion_doc Examples.fashion_path)
          = Some (Py.u "nbp-" ++ ds)
          /\ List.length ds = 4)
  /\ (forall (md5_head : Py.str -> Z) (width : nat),
        ~ (Numbering.sequential (U := plain_tables) width []
             [extract_banana_templates.parse_prompt_file
                (U := plain_tables) md5_head Examples.fashion_doc
                Examples.fashion_path;
              extract_banana_templates.parse_prompt_file
                (U := plain_tables) md5_head Examples.fashion_doc
                second_fashion_path]
           /\ Numbering.sequential (U := plain_tables) width []
                [extract_banana_templates.parse_prompt_file
                   (U := plain_tables) md5_head Examples.fashion_doc
                   second_fashion_path;
                 extract_banana_templates.parse_prompt_file
                   (U := plain_tables) md5_head Examples.fashion_doc
                   Examples.fashion_path])).
Proof.
  split; [vm_compute; reflexivity|]. split.
  - intros md5_head.
    destruct (ParserFacts.banana_record (U := plain_tables) md5_head
                Examples.fashion_doc Examples.fashion_path)
      as (_ & _ & _ & Hid).
    eexists. split; [exact Hid|].
    apply WidthFacts.format_04d_length.
    apply Z.mod_pos_bound. lia.
  - intros md5_head width [H1 H2].
    exact (NumberingFacts.sequential_not_both_orders H1 H2).
Qed.

(** C3 (amended). In [extract_from_github], the loop of [main] goes
    through when every identifier of the catalog has a numeric suffix, and
    whenever it goes through, every accepted record gets the identifier
    "nbp-" followed by the number one above the largest of 0 and the
    numeric suffixes known at that moment, the records accepted before it
    included, written with [03d]: padded with zeros to three digits.  The
    numbers of the accepted records therefore strictly increase in
    acceptance order from the largest number of the catalog, their ids are
    pairwise distinct and distinct from every id of the catalog, and a
    well-numbered catalog stays well numbered.  In
    [extract_banana_templates] the identifier of a record is "nbp-"
    followed by the four digits of the digest of the path of its file
    modulo 10000: it does not depend on the other records, and two files
    whose digests agree modulo 10000 get the same identifier. *)
Theorem C3_next_id_is_max_plus_one {U : Py.UnicodeData}
    (read : Py.str -> Py.str) (existing : list Template.t)
    (files : list Py.str) :
  (Forall Ids.readable existing ->
   exists news,
     extract_from_github.parse_loop read existing [] files = Ok news)
  /\ (forall news,
        extract_from_github.parse_loop read existing [] files = Ok news ->
        Ids.allocated existing news
        /\ map Ids.id_num news = map Some (Ids.suffixes news)
        /\ Ids.increasing_from (Ids.max_suffix existing) (Ids.suffixes news)
        /\ NoDup (map Template.id news)
        /\ (forall e item,
              In e existing -> In item news ->
              Template.id e <> Template.id item)
        /\ (Ids.well_numbered existing ->
            Ids.well_numbered (existing ++ news)))
  /\ (forall n : Z,
        (0 <= n)%Z ->
        List.length (Py.format_03d n)
        = Nat.max 3 (List.length (Py.decimal (Z.to_N n))))
  /\ (forall (md5_head : Py.str -> Z)
             (content filepath content' filepath' : Py.str),
        Template.id
          (extract_banana_templates.parse_prompt_file md5_head content
             filepath)
        = Some (Py.u "nbp-" ++ Py.format_04d (md5_head filepath mod 10000))
        /\ List.length (Py.format_04d (md5_head filepath mod 10000)) = 4
        /\ ((md5_head filepath mod 10000
             = md5_head filepath' mod 10000)%Z ->
            Template.id
              (extract_banana_templates.parse_prompt_file md5_head content
                 filepath)
            = Template.id
                (extract_banana_templates.parse_prompt_file md5_head
                   content' filepath'))).
Proof.
  split; [|split; [|split]].
  - intros Hr. apply MergeFacts.parse_loop_total.
    rewrite app_nil_r. exact Hr.
  - intros news Hrun.
    apply MergeFacts.parse_loop_allocated in Hrun.
    destruct Hrun as (news' & Hnews & Hall).
    cbn [app] in Hnews. subst news'. rewrite app_nil_r in Hall.
    destruct (MergeFacts.allocated_numbers _ _ Hall) as [Hmap Hinc].
    split; [exact Hall|].
    split; [exact Hmap|].
    split; [exact Hinc|].
    split.
    { eapply MergeFacts.numbered_NoDup_ids; [exact Hmap|].
      eapply MergeFacts.increasing_NoDup. exact Hinc. }
    split; [exact (MergeFacts.allocated_fresh _ _ Hall)|].
    intros Hwn. apply MergeFacts.well_numbered_app; assumption.
  - intros n Hn. unfold Py.format_03d.
    destruct (n <? 0)%Z eqn:E; [apply Z.ltb_lt in E; lia|].
    unfold Py.zfill. rewrite length_app, repeat_length. lia.
  - intros md5_head content filepath content' filepath'.
    destruct (ParserFacts.banana_record md5_head content filepath)
      as (_ & _ & _ & Hid).
    destruct (ParserFacts.banana_record md5_head content' filepath')
      as (_ & _ & _ & Hid').
    split; [exact Hid|]. split.
    + apply WidthFacts.format_04d_length. apply Z.mod_pos_bound. lia.
    + intros Heq. rewrite Hid, Hid', Heq. reflexivity.
Qed.

(** C3 on a catalog that ends at nbp-007 and a checkout with two
    documents: they get nbp-008 and nbp-009. *)
Lemma C3_next_id_is_max_plus_one_witness :
  exists first second,
    extract_from_github.parse_loop (U := plain_tables)
      (Examples.read_from Examples.twin_texts) [Examples.logo_item] []
      (map fst Examples.twin_texts)
    = Ok [first; second]
    /\ Ids.allocated (U := plain_tables) [Examples.logo_item] [first; second]
    /\ Template.id first = Some (Py.u "nbp-008")
    /\ Template.id second = Some (Py.u "nbp-009").
Proof.
  eexists. eexists.
  assert (Hrun :
            extract_from_github.parse_loop (U := plain_tables)
              (Examples.read_from Examples.twin_texts) [Examples.logo_item]
              [] (map fst Examples.twin_texts)
            = Ok _) by (vm_compute; reflexivity).
  split; [exact Hrun|].
  split;
    [exact (proj1 (proj1 (proj2 (C3_next_id_is_max_plus_one _ _ _)) _ Hrun))|].
  split; vm_compute; reflexivity.
Defined.

(** C4 (as stated, refuted). A run accepts two records and its write stops
    after ten characters: the file then holds the first ten characters of
    the new text, not the catalog it held before. *)
Lemma C4_failed_write_truncates :
  CatalogFile.commit Examples.render
    (Some (CatalogFile.WriteFailsAfter 10))
    (extract_from_github.main (U := plain_tables)
       (Some Examples.twin_repo) (Examples.read_from Examples.twin_texts)
       Examples.logo_catalog Examples.today Examples.now)
    (Examples.render Examples.logo_catalog)
  = (Py.u "{meta: {ve", false)
  /\ Examples.render Examples.logo_catalog <> Py.u "{meta: {ve".
Proof.
  split; [vm_compute; reflexivity|].
  vm_compute. discriminate.
Qed.

(** C4 (amended). When a run accepts a record, [main] writes the updated
    catalog into the catalog file itself, which it opens for writing: no
    temporary file is written and nothing is renamed.  A write that
    completes leaves the new text.  The file keeps its content only when it
    cannot be opened; a write that stops after [n] characters leaves the
    first [n] characters of the new text, which is not the old content
    unless the old content begins the new text. *)
Theorem C4_write_in_place {U : Py.UnicodeData}
    (json_dump : Catalog -> CatalogFile.bytes)
    (repo_dir : option tree) (read : Py.str -> Py.str) (data : Catalog)
    (today now : Py.str) (news : list Template.t)
    (file : CatalogFile.bytes) :
  extract_from_github.accepted repo_dir read data = Ok news ->
  news <> [] ->
  let data' := {| meta_version := today;
                  meta_updated_at := now;
                  items := items data ++ news |} in
  let r := extract_from_github.main repo_dir read data today now in
  CatalogFile.commit json_dump None r file = (json_dump data', true)
  /\ CatalogFile.commit json_dump (Some CatalogFile.OpenFails) r file
     = (file, false)
  /\ (forall n,
        CatalogFile.commit json_dump (Some (CatalogFile.WriteFailsAfter n))
          r file
        = (firstn n (json_dump data'), false))
  /\ (forall n,
        ~ (exists rest, json_dump data' = file ++ rest) ->
        fst (CatalogFile.commit json_dump
               (Some (CatalogFile.WriteFailsAfter n)) r file)
        <> file).
Proof.
  intros Hacc Hne data' r.
  assert (Hr : r = Ok (extract_from_github.Write data')).
  { unfold r. rewrite MergeFacts.main_accepted, Hacc.
    destruct news; [congruence | reflexivity]. }
  rewrite Hr. cbn [CatalogFile.commit CatalogFile.write_text fst].
  repeat split.
  intros n Hprefix Heq. apply Hprefix.
  exists (skipn n (json_dump data')).
  rewrite <- Heq. symmetry. apply firstn_skipn.
Qed.

(** C4 on a run that accepts two records and a write that stops after ten
    characters. *)
Lemma C4_write_in_place_witness :
  exists first second,
    CatalogFile.commit Examples.render
      (Some (CatalogFile.WriteFailsAfter 10))
      (extract_from_github.main (U := plain_tables)
         (Some Examples.twin_repo) (Examples.read_from Examples.twin_texts)
         Examples.logo_catalog Examples.today Examples.now)
      (Examples.render Examples.logo_catalog)
    = (firstn 10
         (Examples.render
            {| meta_version := Examples.today;
               meta_updated_at := Examples.now;
               items := items Examples.logo_catalog ++ [first; second] |}),
       false).
Proof.
  eexists. eexists.
  assert (Hacc :
            extract_from_github.accepted (U := plain_tables)
              (Some Examples.twin_repo)
              (Examples.read_from Examples.twin_texts) Examples.logo_catalog
            = Ok [_; _]) by (vm_compute; reflexivity).
  refine (proj1 (proj2 (proj2
            (@C4_write_in_place plain_tables Examples.render _ _ _
               Examples.today Examples.now _
               (Examples.render Examples.logo_catalog) Hacc _))) 10).
  discriminate.
Defined.

(** C5 (as stated, refuted). The run of Scenario B accepts no record, and
    the catalog keeps the version it had: it is not set to the date of the
    run. *)
Lemma C5_meta_not_refreshed :
  extract_from_github.accepted (U := plain_tables)
    (Some Examples.logo_repo) (Examples.read_from Examples.logo_texts)
    Examples.logo_catalog
  = Ok []
  /\ meta_version
       (extract_from_github.persisted_after Examples.logo_catalog
          (extract_from_github.main (U := plain_tables)
             (Some Examples.logo_repo)
             (Examples.read_from Examples.logo_texts)
             Examples.logo_catalog Examples.today Examples.now))
     = Py.u "2024-01-01"
  /\ Py.u "2024-01-01" <> Examples.today.
Proof.
  split; [vm_compute; reflexivity|].
  split; [vm_compute; reflexivity|].
  vm_compute. discriminate.
Qed.

(** C5 (amended). A run that accepts no new record writes nothing: the
    catalog after the run is the catalog before it, the version and the
    update time included, and the file is left as it was. *)
Theorem C5_zero_accepted_no_write {U : Py.UnicodeData}
    (repo_dir : option tree) (read : Py.str -> Py.str) (data : Catalog)
    (today now : Py.str) :
  extract_from_github.accepted repo_dir read data = Ok [] ->
  extract_from_github.main repo_dir read data today now
  = Ok extract_from_github.NoWrite
  /\ extract_from_github.persisted_after data
       (extract_from_github.main repo_dir read data today now)
     = data
  /\ (forall json_dump flt file,
        CatalogFile.commit json_dump flt
          (extract_from_github.main repo_dir read data today now) file
        = (file, true)).
Proof.
  intros Hzero.
  assert (Hmain : extract_from_github.main repo_dir read data today now
                  = Ok extract_from_github.NoWrite)
    by (rewrite MergeFacts.main_accepted, Hzero; reflexivity).
  rewrite Hmain. repeat split.
Qed.

(** C5 on the run of Scenario B. *)
Lemma C5_zero_accepted_no_write_witness :
  extract_from_github.persisted_after Examples.logo_catalog
    (extract_from_github.main (U := plain_tables)
       (Some Examples.logo_repo) (Examples.read_from Examples.logo_texts)
       Examples.logo_catalog Examples.today Examples.now)
  = Examples.logo_catalog.
Proof.
  apply (@C5_zero_accepted_no_write plain_tables (Some Examples.logo_repo)
           (Examples.read_from Examples.logo_texts) Examples.logo_catalog
           Examples.today Examples.now).
  vm_compute. reflexivity.
Defined.

(** C6 (as stated, refuted). The rules in the stated order give the short
    line of [short_doc] by rule 3, at either threshold, where
    [extract_from_github] reports a failure; and they give the fenced line
    of [intro_then_block_doc] by rule 1, where [extract_banana_templates]
    returns the English line that precedes the block. *)
Lemma C6_rules_not_applied_in_order :
  (ParserRules.ordered (U := plain_tables) 3 5 Examples.short_doc
   = Some (Py.u "A short line.")
   /\ ParserRules.ordered (U := plain_tables) 7 10 Examples.short_doc
      = Some (Py.u "A short line.")
   /\ extract_from_github.parse_prompt_file (U := plain_tables)
        Examples.short_doc Examples.fashion_path = None)
  /\ (ParserRules.ordered (U := plain_tables) 3 5
        Examples.intro_then_block_doc
      = Some (Py.u "actual prompt")
      /\ ParserRules.ordered (U := plain_tables) 7 10
           Examples.intro_then_block_doc
         = Some (Py.u "actual prompt")
      /\ Template.prompt
           (extract_banana_templates.parse_prompt_file (U := plain_tables)
              Examples.md5_zero Examples.intro_then_block_doc
              Examples.fashion_path)
         = Some (Py.u "This is a long English description line")
      /\ Py.u "This is a long English description line"
         <> Py.u "actual prompt").
Proof.
  split; [repeat split; vm_compute; reflexivity|].
  split; [vm_compute; reflexivity|].
  split; [vm_compute; reflexivity|].
  split; [vm_compute; reflexivity|].
  vm_compute. discriminate.
Qed.

(** C6 (amended). [extract_from_github] applies rule 1, then rule 2 at the
    threshold 0.6, and has no third rule: a non-empty document yields a
    record exactly when one of the two finds a line.
    [extract_banana_templates] makes one pass over the lines in which the
    first line wins that qualifies by rule 1 inside a fenced block or by
    rule 2, at the threshold 0.7, outside of one; then it applies rule 3,
    then it takes the placeholder.  In both the prompt of the record is the
    text found, cut to 500 characters. *)
Theorem C6_extraction_order {U : Py.UnicodeData} (md5_head : Py.str -> Z)
    (content filepath : Py.str) :
  (content <> [] ->
   option_map Template.prompt
     (extract_from_github.parse_prompt_file content filepath)
   = option_map (fun p => Some (Py.slice_to 500 p))
       match ParserRules.rule1 content with
       | Some p => Some p
       | None => ParserRules.rule2 3 5 content
       end)
  /\ Template.prompt
       (extract_banana_templates.parse_prompt_file md5_head content filepath)
     = Some
         (Py.slice_to 500
            match ParserRules.first_line (ParserRules.single_pass_line 7 10)
                    content with
            | Some p => p
            | None =>
                match ParserRules.rule3 content with
                | Some p => p
                | None => extract_banana_templates.placeholder_prompt
                end
            end)
  /\ (forall t p,
        extract_from_github.parse_prompt_file content filepath = Some t ->
        Template.prompt t = Some p -> List.length p <= 500)
  /\ (forall p,
        Template.prompt
          (extract_banana_templates.parse_prompt_file md5_head content
             filepath) = Some p ->
        List.length p <= 500).
Proof.
  assert (Hgithub :
            content <> [] ->
            option_map Template.prompt
              (extract_from_github.parse_prompt_file content filepath)
            = option_map (fun p => Some (Py.slice_to 500 p))
                match ParserRules.rule1 content with
                | Some p => Some p
                | None => ParserRules.rule2 3 5 content
                end).
  { intros Hc. apply PyFacts.truthy_true in Hc.
    pose proof (ParserFacts.extracted_prompt_rules content) as Hrules.
    destruct (ParserRules.rule1 content) as [p|] eqn:E1.
    - assert (Hp : Py.truthy p = true)
        by (eapply ParserFacts.first_line_non_blank;
            [apply ParserFacts.fenced_non_blank | exact E1]).
      rewrite <- Hrules in Hp.
      destruct (ParserFacts.parse_prompt_file_some content filepath Hc Hp)
        as (t & -> & _ & Hprompt & _).
      cbn [option_map]. rewrite Hprompt, Hrules. reflexivity.
    - destruct (ParserRules.rule2 3 5 content) as [p|] eqn:E2.
      + assert (Hp : Py.truthy p = true).
        { eapply ParserFacts.first_line_non_blank; [|exact E2].
          intros l Hl. eapply ParserFacts.latin_non_blank. exact Hl. }
        rewrite <- Hrules in Hp.
        destruct (ParserFacts.parse_prompt_file_some content filepath Hc Hp)
          as (t & -> & _ & Hprompt & _).
        cbn [option_map]. rewrite Hprompt, Hrules. reflexivity.
      + rewrite ParserFacts.parse_prompt_file_none; [reflexivity|].
        right. rewrite Hrules. reflexivity. }
  destruct (ParserFacts.banana_record md5_head content filepath)
    as [Hbanana _].
  split; [exact Hgithub|].
  split; [rewrite Hbanana, ParserFacts._extract_prompt_rules; reflexivity|].
  split.
  - intros t p Ht Hp.
    destruct content as [|c content']; [discriminate|].
    assert (Hne : c :: content' <> []) by discriminate.
    specialize (Hgithub Hne). rewrite Ht in Hgithub.
    cbn [option_map] in Hgithub.
    rewrite Hp in Hgithub.
    destruct (match ParserRules.rule1 (c :: content') with
              | Some p0 => Some p0
              | None => ParserRules.rule2 3 5 (c :: content')
              end) as [q|]; [|discriminate].
    cbn [option_map] in Hgithub.
    assert (Ep : p = Py.slice_to 500 q) by congruence.
    rewrite Ep. apply PyFacts.slice_to_length.
  - intros p Hp. rewrite Hbanana in Hp.
    assert (Ep : p = Py.slice_to 500
                       (extract_banana_templates._extract_prompt content))
      by congruence.
    rewrite Ep. apply PyFacts.slice_to_length.
Qed.

(** C7 (the code at the failing input). In a checkout with readme files in
    several spellings, [extract_banana_templates.find_template_files]
    lists [readme.md] and [Portrait/Readme.md]: it leaves out the file
    named exactly [README.md] only.  On the same checkout
    [extract_from_github.find_template_files] leaves out all of them. *)
Theorem C7_lowercase_readme_listed :
  extract_banana_templates.find_template_files Examples.readme_repo
  = [Py.u "gpt4o-image-prompts-master/readme.md";
     Py.u "gpt4o-image-prompts-master/Logo.md";
     Py.u "gpt4o-image-prompts-master/Portrait/Readme.md";
     Py.u "gpt4o-image-prompts-master/Portrait/Anime.md"]
  /\ extract_from_github.find_template_files (U := plain_tables)
       Examples.readme_repo
     = [Py.u "gpt4o-image-prompts-master/Logo.md";
        Py.u "gpt4o-image-prompts-master/Portrait/Anime.md"].
Proof.
  split; vm_compute; reflexivity.
Qed.

(** C8. The classifier is total: for every file name, category hint and
    content, both classifiers return one aspect ratio of the fixed set
    9:16, 16:9, 3:4, 1:1 and non-empty lists of channels, materials and
    industries; when no channel keyword matches the channels are the
    universal tag, and when no ratio keyword matches the ratio is 1:1. *)
Theorem C8_classifier_total {U : Py.UnicodeData}
    (filename category title content : Py.str) :
  (let '(channels, materials, industries, ratio) :=
     extract_from_github.classify_template filename content in
   In ratio aspect_ratios
   /\ channels <> [] /\ materials <> [] /\ industries <> []
   /\ (Py.any_in
         [Py.u "portrait"; Py.u "anime"; Py.u "character"; Py.u "写实";
          Py.u "动漫"; Py.u "product"; Py.u "food"; Py.u "fashion";
          Py.u "产品"; Py.u "美食"; Py.u "时尚"; Py.u "cyberpunk";
          Py.u "comic"; Py.u "pixel"; Py.u "fantasy"; Py.u "赛博";
          Py.u "漫画"] (Py.lower filename) = false ->
       channels = [Py.u "全部"])
   /\ (Py.any_in
         [Py.u "portrait"; Py.u "写实"; Py.u "landscape"; Py.u "风景";
          Py.u "poster"; Py.u "海报"] (Py.lower filename) = false ->
       ratio = Py.u "1:1"))
  /\
  (let '(channels, materials, industries, ratio) :=
     extract_banana_templates._classify_template category title content in
   In ratio aspect_ratios
   /\ channels <> [] /\ materials <> [] /\ industries <> []
   /\ (existsb (Py.str_eqb category)
         [Py.u "肖像"; Py.u "摄影"; Py.u "设计"; Py.u "场景";
          Py.u "艺术风格"] = false ->
       Py.any_in [Py.u "portrait"; Py.u "photography"; Py.u "design"]
         (Py.lower category) = false ->
       channels = [Py.u "全部"])
   /\ (Py.contains (Py.u "肖像") (Py.lower category) = false ->
       Py.any_in
         [Py.u "portrait"; Py.u "风景"; Py.u "landscape"; Py.u "海报";
          Py.u "poster"] (Py.lower title) = false ->
       ratio = Py.u "1:1")).
Proof.
  split.
  - unfold extract_from_github.classify_template. cbv zeta.
    set (s := Py.lower filename).
    split; [apply ClassifierFacts.in_aspect_ratios|].
    split; [repeat match goal with
                   | |- context [if ?c then _ else _] => destruct c
                   end; discriminate|].
    split; [repeat match goal with
                   | |- context [if ?c then _ else _] => destruct c
                   end; discriminate|].
    split; [repeat match goal with
                   | |- context [if ?c then _ else _] => destruct c
                   end; discriminate|].
    split.
    + intros H.
      change (Py.any_in
                ([Py.u "portrait"; Py.u "anime"; Py.u "character";
                  Py.u "写实"; Py.u "动漫"]
                 ++ [Py.u "product"; Py.u "food"; Py.u "fashion";
                     Py.u "产品"; Py.u "美食"; Py.u "时尚"]
                 ++ [Py.u "cyberpunk"; Py.u "comic"; Py.u "pixel";
                     Py.u "fantasy"; Py.u "赛博"; Py.u "漫画"]) s = false)
        in H.
      rewrite !ClassifierFacts.any_in_app in H.
      apply orb_false_elim in H. destruct H as [H1 H].
      apply orb_false_elim in H. destruct H as [H2 H3].
      rewrite H1, H2, H3. reflexivity.
    + intros H.
      change (Py.any_in
                ([Py.u "portrait"; Py.u "写实"]
                 ++ [Py.u "landscape"; Py.u "风景"]
                 ++ [Py.u "poster"; Py.u "海报"]) s = false) in H.
      rewrite !ClassifierFacts.any_in_app in H.
      apply orb_false_elim in H. destruct H as [H1 H].
      apply orb_false_elim in H. destruct H as [H2 H3].
      rewrite H1, H2, H3. reflexivity.
  - unfold extract_banana_templates._classify_template. cbv zeta.
    set (t := Py.lower title). set (c := Py.lower category).
    split; [apply ClassifierFacts.in_aspect_ratios|].
    split; [repeat match goal with
                   | |- context [if ?c then _ else _] => destruct c
                   end; discriminate|].
    split; [repeat match goal with
                   | |- context [if ?c then _ else _] => destruct c
                   end; discriminate|].
    split; [repeat match goal with
                   | |- context [if ?c then _ else _] => destruct c
                   end; discriminate|].
    split.
    + intros He Hc. cbn [existsb] in He.
      rewrite !ClassifierFacts.any_in_cons in Hc.
      repeat (apply orb_false_elim in He; destruct He as [? He]).
      repeat (apply orb_false_elim in Hc; destruct Hc as [? Hc]).
      repeat match goal with H : _ = false |- _ => rewrite H; clear H end.
      reflexivity.
    + intros Hc Ht.
      rewrite !ClassifierFacts.any_in_cons in Ht.
      repeat (apply orb_false_elim in Ht; destruct Ht as [? Ht]).
      repeat match goal with H : _ = false |- _ => rewrite H; clear H end.
      reflexivity.
Qed.

(** C9 (as stated, refuted). On Scenario A the title stored in the record
    is not the derived title: both scripts put the brand in front of it. *)
Lemma C9_record_title_has_brand :
  option_map Template.title
    (extract_from_github.parse_prompt_file (U := plain_tables)
       Examples.fashion_doc Examples.fashion_path)
  = Some (Py.u "Nano Banana·Fashion Photography")
  /\ Template.title
       (extract_banana_templates.parse_prompt_file (U := plain_tables)
          Examples.md5_zero Examples.fashion_doc Examples.fashion_path)
     = Py.u "Nano Banana·Fashion Photography"
  /\ Py.u "Nano Banana·Fashion Photography" <> Py.u "Fashion Photography".
Proof.
  split; [vm_compute; reflexivity|].
  split; [vm_compute; reflexivity|].
  vm_compute. discriminate.
Qed.

(** C9 (amended). On the document of Scenario A, with the file name
    [Fashion-Photography.md] under the category directory "摄影", both
    scripts produce the prompt "Fashion photography, editorial style", derive
    the title "Fashion Photography" from the base name, store it in the
    record as "Nano Banana·Fashion Photography", and choose the ratio 1:1. *)
Theorem C9_scenario_a {U : Py.UnicodeData} (md5_head : Py.str -> Z) :
  (exists t,
     extract_from_github.parse_prompt_file Examples.fashion_doc
       Examples.fashion_path = Some t
     /\ Template.prompt t = Some (Py.u "Fashion photography, editorial style")
     /\ extract_from_github.title_of
          (extract_from_github.filename_of Examples.fashion_path)
        = Py.u "Fashion Photography"
     /\ Template.title t = Py.u "Nano Banana·Fashion Photography"
     /\ Template.ratio t = Py.u "1:1")
  /\ (let t := extract_banana_templates.parse_prompt_file md5_head
                 Examples.fashion_doc Examples.fashion_path in
      extract_banana_templates.category_of Examples.fashion_path
      = Py.u "摄影"
      /\ Template.prompt t
         = Some (Py.u "Fashion photography, editorial style")
      /\ extract_banana_templates.title_of Examples.fashion_path
         = Py.u "Fashion Photography"
      /\ Template.title t = Py.u "Nano Banana·Fashion Photography"
      /\ Template.ratio t = Py.u "1:1").
Proof.
  split.
  - assert (Hc : Py.truthy Examples.fashion_doc = true) by reflexivity.
    assert (Hp : Py.truthy
                   (extract_from_github.extracted_prompt
                      Examples.fashion_doc) = true)
      by (vm_compute; reflexivity).
    destruct (ParserFacts.parse_prompt_file_some Examples.fashion_doc
                Examples.fashion_path Hc Hp)
      as (t & Ht & _ & Hprompt & Htitle & Hratio).
    exists t. split; [exact Ht|].
    split; [rewrite Hprompt; vm_compute; reflexivity|].
    split; [vm_compute; reflexivity|].
    split; [rewrite Htitle; vm_compute; reflexivity|].
    rewrite Hratio. vm_compute. reflexivity.
  - cbv zeta.
    destruct (ParserFacts.banana_record md5_head Examples.fashion_doc
                Examples.fashion_path)
      as (Hprompt & Htitle & Hratio & _).
    split; [vm_compute; reflexivity|].
    split; [rewrite Hprompt; vm_compute; reflexivity|].
    split; [vm_compute; reflexivity|].
    split; [rewrite Htitle; vm_compute; reflexivity|].
    rewrite Hratio. vm_compute. reflexivity.
Qed.

(** C10 (as stated, refuted). The identifier "7" does not have the shape
    "nbp-" followed by digits, and [get_next_id] returns "nbp-008" for it. *)
Lemma C10_prefix_not_required :
  Ids.is_nbp_decimal (Py.u "7") = false
  /\ extract_from_github.get_next_id (U := plain_tables)
       [item_with_id (Py.u "7")]
     = Ok (Py.u "nbp-008").
Proof.
  split; vm_compute; reflexivity.
Qed.

(** C10 (amended). [get_next_id] returns an identifier exactly when, for
    every item that has an id, [int] accepts what is left of the id once
    every "nbp-" is deleted; otherwise it raises [ValueError].  The ids
    "tpl-5", "nbp-" and "nbp-1a" make it raise, every id of the shape "nbp-"
    followed by decimal digits is accepted, and the empty list gives
    "nbp-001". *)
Theorem C10_get_next_id_defined {U : Py.UnicodeData} :
  (forall templates,
     (exists s, extract_from_github.get_next_id templates = Ok s)
     <-> Forall Ids.readable templates)
  /\ (forall templates,
        ~ Forall Ids.readable templates ->
        extract_from_github.get_next_id templates = Raise ValueError)
  /\ (forall templates s,
        In (item_with_id s) templates ->
        In s [Py.u "tpl-5"; Py.u "nbp-"; Py.u "nbp-1a"] ->
        extract_from_github.get_next_id templates = Raise ValueError)
  /\ extract_from_github.get_next_id [] = Ok (Py.u "nbp-001")
  /\ (forall s, Ids.is_nbp_decimal s = true -> Ids.suffix_of s <> None).
Proof.
  split; [|split; [|split; [|split]]].
  - intros templates. split.
    + intros [s Hs]. apply IdFacts.get_next_id_inv in Hs. apply Hs.
    + intros H. eexists. apply IdFacts.get_next_id_ok. exact H.
  - intros templates. apply IdFacts.get_next_id_raise.
  - intros templates s Hin Hs.
    apply IdFacts.get_next_id_raise. intros Hall.
    rewrite Forall_forall in Hall. specialize (Hall _ Hin).
    unfold Ids.readable in Hall. cbn [item_with_id Template.id] in Hall.
    apply Hall.
    cbn [In] in Hs.
    destruct Hs as [<- | [<- | [<- | []]]]; vm_compute; reflexivity.
  - vm_compute. reflexivity.
  - intros s Hs. unfold Ids.is_nbp_decimal in Hs.
    apply andb_prop in Hs. destruct Hs as [Hs Hd].
    apply andb_prop in Hs. destruct Hs as [Hpre Hne].
    assert (Es : s = Py.u "nbp-" ++ skipn 4 s).
    { destruct s as [|c0 [|c1 [|c2 [|c3 r]]]]; try discriminate.
      change (Py.u "nbp-") with [110%N; 98%N; 112%N; 45%N] in *.
      cbn [Py.startswith] in Hpre.
      repeat (apply andb_prop in Hpre; destruct Hpre as [?E Hpre]).
      repeat match goal with
             | H : (_ =? _)%N = true |- _ => apply N.eqb_eq in H
             end.
      subst. reflexivity. }
    assert (Hall : PyFacts.all_digits (skipn 4 s)).
    { apply Forall_forall. rewrite forallb_forall in Hd. exact Hd. }
    unfold Ids.suffix_of. rewrite Es.
    rewrite (IntFacts.replace_prefix_digits Hall).
    rewrite IntFacts.int_digits; [discriminate | exact Hall|].
    apply PyFacts.truthy_true. exact Hne.
Qed.

(** * Further properties *)

(** X1. [extract_from_github.find_template_files] returns exactly the paths
    of the files under the template directory whose name ends in [.md] and
    is not the readme in any mix of upper and lower case. *)
Theorem X1_locator_lists_template_documents {U : Py.UnicodeData}
    (repo_dir : tree) (path : Py.str) :
  In path (extract_from_github.find_template_files repo_dir)
  <-> exists templates_dir file,
        lookup_dir templates_dir_name repo_dir = Some templates_dir
        /\ Locator.entry templates_dir_name templates_dir file path
        /\ Py.endswith (Py.u ".md") file = true
        /\ Py.lower file <> Py.u "readme.md".
Proof.
  unfold extract_from_github.find_template_files.
  destruct (lookup_dir templates_dir_name repo_dir) as [t|].
  - rewrite LocatorFacts.walk_entries. split.
    + intros (file & He & Hkeep).
      apply LocatorFacts.is_template_file_spec in Hkeep.
      exists t, file. split; [reflexivity|]. split; [exact He | exact Hkeep].
    + intros (t' & file & Ht & He & Hkeep). injection Ht as <-.
      exists file. split; [exact He|].
      apply LocatorFacts.is_template_file_spec. exact Hkeep.
  - split; [contradiction|].
    intros (t' & file & Ht & _). discriminate.
Qed.

(** X2. The duplicate scan of [main] marks a candidate exactly when the
    first 100 characters of its prompt equal the first 100 characters of
    the prompt of an item of the catalog as loaded, and the prompts of the
    accepted records are the prompts of the candidates that are not marked,
    in the order of the files. *)
Theorem X2_duplicates_of_catalog_dropped {U : Py.UnicodeData}
    (read : Py.str -> Py.str) (existing : list Template.t)
    (files : list Py.str) :
  (forall t,
     extract_from_github.is_duplicate existing t = true
     <-> exists e,
           In e existing
           /\ Py.slice_to 100 (Template.get_prompt e)
              = Py.slice_to 100 (Template.get_prompt t))
  /\ (forall news,
        extract_from_github.parse_loop read existing [] files = Ok news ->
        map Template.get_prompt news
        = map Template.get_prompt
            (filter
               (fun t => negb (extract_from_github.is_duplicate existing t))
               (extract_from_github.candidates read files))).
Proof.
  split.
  - intros t. apply MergeFacts.is_duplicate_spec.
  - intros news Hrun. apply MergeFacts.parse_loop_prompts in Hrun.
    exact Hrun.
Qed.

(** X3. Idempotence: after a run that wrote the catalog, a second run on
    the same checkout and the catalog as written accepts no record. *)
Theorem X3_second_run_accepts_nothing {U : Py.UnicodeData}
    (repo_dir : option tree) (read : Py.str -> Py.str) (data : Catalog)
    (today now : Py.str) (data' : Catalog) :
  extract_from_github.main repo_dir read data today now
  = Ok (extract_from_github.Write data') ->
  extract_from_github.accepted repo_dir read data' = Ok [].
Proof.
  rewrite MergeFacts.main_accepted.
  unfold extract_from_github.accepted.
  destruct repo_dir as [repo|]; [|discriminate].
  destruct (extract_from_github.find_template_files repo) as [|f fs];
    [discriminate|].
  destruct (extract_from_github.parse_loop read (items data) []
              (firstn 50 (f :: fs))) as [news|e] eqn:Hrun; [|discriminate].
  destruct news as [|n news]; [discriminate|].
  intros H. injection H as <-. cbn [items].
  apply RunFacts.parse_loop_all_duplicates.
  apply (RunFacts.candidate_covered _ _ _ Hrun).
Qed.

(** X3 on the checkout with two documents and the empty catalog. *)
Lemma X3_second_run_accepts_nothing_witness :
  exists data',
    extract_from_github.main (U := plain_tables) (Some Examples.twin_repo)
      (Examples.read_from Examples.twin_texts) Examples.empty_catalog
      Examples.today Examples.now
    = Ok (extract_from_github.Write data')
    /\ extract_from_github.accepted (U := plain_tables)
         (Some Examples.twin_repo) (Examples.read_from Examples.twin_texts)
         data'
       = Ok [].
Proof.
  eexists.
  assert (Hmain :
            extract_from_github.main (U := plain_tables)
              (Some Examples.twin_repo)
              (Examples.read_from Examples.twin_texts)
              Examples.empty_catalog Examples.today Examples.now
            = Ok (extract_from_github.Write _)) by (vm_compute; reflexivity).
  split; [exact Hmain|].
  exact (X3_second_run_accepts_nothing _ _ _ _ _ Hmain).
Defined.

(** X5. [extract_banana_templates.parse_prompt_file] takes the identifier
    of a record from the path of its file alone: "nbp-" followed by the four
    decimal digits of the digest modulo 10000.  Two files whose digests
    agree modulo 10000 get the same identifier. *)
Theorem X5_banana_id_from_path {U : Py.UnicodeData}
    (md5_head : Py.str -> Z) (content filepath content' filepath' : Py.str) :
  Template.id
    (extract_banana_templates.parse_prompt_file md5_head content filepath)
  = Some (Py.u "nbp-" ++ Py.format_04d (md5_head filepath mod 10000))
  /\ List.length (Py.format_04d (md5_head filepath mod 10000)) = 4
  /\ PyFacts.all_digits (Py.format_04d (md5_head filepath mod 10000))
  /\ ((md5_head filepath mod 10000 = md5_head filepath' mod 10000)%Z ->
      Template.id
        (extract_banana_templates.parse_prompt_file md5_head content
           filepath)
      = Template.id
          (extract_banana_templates.parse_prompt_file md5_head content'
             filepath')).
Proof.
  pose proof (Z.mod_pos_bound (md5_head filepath) 10000 ltac:(lia)) as Hb.
  destruct (ParserFacts.banana_record md5_head content filepath)
    as (_ & _ & _ & Hid).
  destruct (ParserFacts.banana_record md5_head content' filepath')
    as (_ & _ & _ & Hid').
  split; [exact Hid|].
  split; [apply WidthFacts.format_04d_length; exact Hb|].
  split.
  - unfold Py.format_04d.
    destruct (md5_head filepath mod 10000 <? 0)%Z eqn:E;
      [apply Z.ltb_lt in E; lia|].
    apply PyFacts.zfill_all_digits, PyFacts.decimal_all_digits.
  - intros Heq. rewrite Hid, Hid', Heq. reflexivity.
Qed.

(** X6. Scenario B: when the first 100 characters of the prompt of every
    candidate are those of the prompt of some item of the catalog, the run
    accepts nothing and the catalog is unchanged. *)
Theorem X6_known_prompts_dropped {U : Py.UnicodeData}
    (repo : tree) (read : Py.str -> Py.str) (data : Catalog)
    (today now : Py.str) :
  (forall t,
     In t (extract_from_github.candidates read
             (firstn 50 (extract_from_github.find_template_files repo))) ->
     exists e,
       In e (items data)
       /\ Py.slice_to 100 (Template.get_prompt e)
          = Py.slice_to 100 (Template.get_prompt t)) ->
  extract_from_github.accepted (Some repo) read data = Ok []
  /\ extract_from_github.persisted_after data
       (extract_from_github.main (Some repo) read data today now)
     = data.
Proof.
  intros Hknown.
  assert (Hacc : extract_from_github.accepted (Some repo) read data = Ok []).
  { unfold extract_from_github.accepted.
    destruct (extract_from_github.find_template_files repo) as [|f fs] eqn:E;
      [reflexivity|].
    apply RunFacts.parse_loop_all_duplicates.
    intros t Ht. apply MergeFacts.is_duplicate_spec.
    apply Hknown. exact Ht. }
  split; [exact Hacc|].
  rewrite MergeFacts.main_accepted, Hacc. reflexivity.
Qed.

(** X6 on the run of Scenario B. *)
Lemma X6_known_prompts_dropped_witness :
  extract_from_github.accepted (U := plain_tables)
    (Some Examples.logo_repo) (Examples.read_from Examples.logo_texts)
    Examples.logo_catalog
  = Ok []
  /\ extract_from_github.persisted_after Examples.logo_catalog
       (extract_from_github.main (U := plain_tables)
          (Some Examples.logo_repo) (Examples.read_from Examples.logo_texts)
          Examples.logo_catalog Examples.today Examples.now)
     = Examples.logo_catalog.
Proof.
  apply (@X6_known_prompts_dropped plain_tables Examples.logo_repo
           (Examples.read_from Examples.logo_texts) Examples.logo_catalog
           Examples.today Examples.now).
  intros t Ht. vm_compute in Ht.
  destruct Ht as [<- | []].
  exists Examples.logo_item. split; [left; reflexivity|].
  vm_compute. reflexivity.
Defined.

(** X7. [extract_banana_templates.find_template_files] returns exactly the
    paths of the files under the template directory whose name ends in
    [.md] and is not, letter for letter, [README.md]. *)
Theorem X7_banana_locator (temp_dir : tree) (path : Py.str) :
  In path (extract_banana_templates.find_template_files temp_dir)
  <-> exists target_dir file,
        lookup_dir templates_dir_name temp_dir = Some target_dir
        /\ Locator.entry templates_dir_name target_dir file path
        /\ Py.endswith (Py.u ".md") file = true
        /\ file <> Py.u "README.md".
Proof.
  unfold extract_banana_templates.find_template_files.
  destruct (lookup_dir templates_dir_name temp_dir) as [t|].
  - rewrite BananaFacts.banana_walk_entries. split.
    + intros (file & He & Hkeep).
      apply BananaFacts.banana_is_template_file_spec in Hkeep.
      exists t, file. split; [reflexivity|]. split; [exact He | exact Hkeep].
    + intros (t' & file & Ht & He & Hkeep). injection Ht as <-.
      exists file. split; [exact He|].
      apply BananaFacts.banana_is_template_file_spec. exact Hkeep.
  - split; [contradiction|].
    intros (t' & file & Ht & _). discriminate.
Qed.

(** X9. How [extract_all_templates] of [extract_banana_templates] ends.
    When the clone succeeded and template files were found, it returns one
    record for every file that has more than ten characters of text and a
    path that can be encoded, in the order of the files.  Otherwise no
    record ever comes from a mirror: the call ends with [AttributeError]
    when one of the mirrors answers a probe with status 200, and returns
    the empty list when none does.  Every record returned has a non-empty
    prompt of at most 500 characters. *)
Theorem X9_banana_extraction_outcomes {U : Py.UnicodeData}
    (md5_head : Py.str -> Z) (head_status : Py.str -> option Z)
    (get_file_via_mirror :
       extract_banana_templates.value -> Py.str -> Py.str)
    (clone_ok : bool) (temp_dir : tree) (read : Py.str -> Py.str) :
  extract_banana_templates.extract_all_templates md5_head head_status
    get_file_via_mirror clone_ok temp_dir read
  = match (if clone_ok
           then extract_banana_templates.find_template_files temp_dir
           else []) with
    | [] =>
        if existsb
             (fun mirror =>
                existsb
                  (extract_banana_templates.answers head_status mirror)
                  (firstn 2 extract_banana_templates.possible_files))
             extract_banana_templates.mirrors
        then extract_banana_templates.AttributeError
        else extract_banana_templates.Returns []
    | _ :: _ =>
        extract_banana_templates.Returns
          (map (fun filepath =>
                  extract_banana_templates.parse_prompt_file md5_head
                    (read filepath) filepath)
             (filter (fun filepath =>
                        Py.truthy (read filepath)
                        && (10 <? List.length (read filepath))
                        && extract_banana_templates.utf8_encodable filepath)
                (extract_banana_templates.find_template_files temp_dir)))
    end
  /\ (forall templates,
        extract_banana_templates.extract_all_templates md5_head head_status
          get_file_via_mirror clone_ok temp_dir read
        = extract_banana_templates.Returns templates ->
        Forall
          (fun t =>
             exists p,
               Template.prompt t = Some p /\ p <> []
               /\ List.length p <= 500)
          templates).
Proof.
  assert (Hrun :
    extract_banana_templates.extract_all_templates md5_head head_status
      get_file_via_mirror clone_ok temp_dir read
    = match (if clone_ok
             then extract_banana_templates.find_template_files temp_dir
             else []) with
      | [] =>
          if existsb
               (fun mirror =>
                  existsb
                    (extract_banana_templates.answers head_status mirror)
                    (firstn 2 extract_banana_templates.possible_files))
               extract_banana_templates.mirrors
          then extract_banana_templates.AttributeError
          else extract_banana_templates.Returns []
      | _ :: _ =>
          extract_banana_templates.Returns
            (map (fun filepath =>
                    extract_banana_templates.parse_prompt_file md5_head
                      (read filepath) filepath)
               (filter (fun filepath =>
                          Py.truthy (read filepath)
                          && (10 <? List.length (read filepath))
                          && extract_banana_templates.utf8_encodable
                               filepath)
                  (extract_banana_templates.find_template_files
                     temp_dir)))
      end).
  { unfold extract_banana_templates.extract_all_templates,
      extract_banana_templates.extract_via_html.
    destruct clone_ok.
    - destruct (extract_banana_templates.find_template_files temp_dir)
        as [|filepath rest] eqn:Efiles.
      + destruct (BananaRunFacts.probe_cases head_status
                    extract_banana_templates.mirrors)
          as [[-> ->] | [-> [mirror ->]]]; reflexivity.
      + rewrite BananaRunFacts.collect_map_filter. reflexivity.
    - destruct (BananaRunFacts.probe_cases head_status
                  extract_banana_templates.mirrors)
        as [[-> ->] | [-> [mirror ->]]]; reflexivity. }
  split; [exact Hrun|].
  intros templates Hret. rewrite Hrun in Hret.
  assert (Hrecords :
    forall files,
      Forall
        (fun t =>
           exists p,
             Template.prompt t = Some p /\ p <> []
             /\ List.length p <= 500)
        (map (fun filepath =>
                extract_banana_templates.parse_prompt_file md5_head
                  (read filepath) filepath) files)).
  { intros files. apply Forall_forall. intros t Ht.
    apply in_map_iff in Ht. destruct Ht as (filepath & <- & _).
    destruct (ParserFacts.banana_record md5_head (read filepath) filepath)
      as (Hprompt & _).
    eexists. split; [exact Hprompt|]. split.
    - apply PyFacts.truthy_true. rewrite PyFacts.slice_to_truthy.
      rewrite ParserFacts._extract_prompt_rules.
      destruct (ParserRules.first_line (ParserRules.single_pass_line 7 10)
                  (read filepath)) as [p|] eqn:E1.
      + eapply ParserFacts.first_line_non_blank; [|exact E1].
        apply ParserFacts.single_pass_non_blank.
      + destruct (ParserRules.rule3 (read filepath)) as [p|] eqn:E3;
          [|reflexivity].
        eapply ParserFacts.first_line_non_blank; [|exact E3].
        intros l Hl. apply ParserFacts.fallback_non_blank. exact Hl.
    - apply PyFacts.slice_to_length. }
  destruct (if clone_ok
            then extract_banana_templates.find_template_files temp_dir
            else []) as [|filepath rest].
  - destruct (existsb _ extract_banana_templates.mirrors);
      [discriminate|].
    injection Hret as <-. constructor.
  - injection Hret as <-. apply Hrecords.
Qed.

(** X10. A record that [extract_from_github.parse_prompt_file] builds has
    for prompt a line of the document, stripped of the blanks around it and
    cut to 500 characters: the prompt is not empty, holds no line break and
    does not begin with a blank, and it does not end with one unless the
    line was longer than 500 characters. *)
Theorem X10_prompt_is_a_clean_line {U : Py.UnicodeData}
    (content filepath : Py.str) (t : Template.t) :
  extract_from_github.parse_prompt_file content filepath = Some t ->
  exists p, Template.prompt t = Some p /\ Shape.clean 500 content p.
Proof.
  intros Ht.
  destruct (Py.truthy content) eqn:Hc.
  2:{ rewrite ParserFacts.parse_prompt_file_none in Ht by (left; exact Hc).
      discriminate. }
  destruct (Py.truthy (extract_from_github.extracted_prompt content))
    eqn:Hp.
  2:{ rewrite ParserFacts.parse_prompt_file_none in Ht by (right; exact Hp).
      discriminate. }
  destruct (ParserFacts.parse_prompt_file_some content filepath Hc Hp)
    as (t' & Ht' & _ & Hprompt & _).
  rewrite Ht in Ht'. injection Ht' as <-.
  eexists. split; [exact Hprompt|].
  assert (Hline : exists line,
             In line (Py.split 10 content)
             /\ extract_from_github.extracted_prompt content
                = Py.strip line).
  { rewrite ParserFacts.extracted_prompt_rules in Hp |- *.
    destruct (ParserRules.rule1 content) as [p|] eqn:E1.
    - exact (ShapeFacts.first_line_is_line _ _ E1).
    - destruct (ParserRules.rule2 3 5 content) as [p|] eqn:E2;
        [|discriminate].
      exact (ShapeFacts.first_line_is_line _ _ E2). }
  destruct Hline as (line & Hin & E). rewrite E.
  apply ShapeFacts.stripped_line_clean; [exact Hin|].
  rewrite <- E. apply PyFacts.truthy_true. exact Hp.
Qed.

(** X10 on the document of Scenario A. *)
Lemma X10_prompt_is_a_clean_line_witness :
  exists t p,
    extract_from_github.parse_prompt_file (U := plain_tables)
      Examples.fashion_doc Examples.fashion_path = Some t
    /\ Template.prompt t = Some p
    /\ Shape.clean 500 Examples.fashion_doc p.
Proof.
  eexists.
  assert (Ht : extract_from_github.parse_prompt_file (U := plain_tables)
                 Examples.fashion_doc Examples.fashion_path = Some _)
    by (vm_compute; reflexivity).
  destruct (X10_prompt_is_a_clean_line _ _ Ht) as (p & Hp & Hclean).
  exists p. split; [exact Ht|]. split; [exact Hp | exact Hclean].
Defined.

